(** * A shallow embedding of the Python shell of src/app

    Sources: [src/app/parser.py] (the tokenizer [QuoteProcessor.split_input]),
    [src/app/command_factory.py] (the resolver [CommandFactory.get_command]),
    [src/app/commands.py] (the [execute] methods) and [src/app/shell.py]
    (one iteration of the read-eval-print loop).

    Python strings are modelled as [String.string]: sequences of 8-bit
    characters, read as the Latin-1 code points 0..255. *)

From Stdlib Require Import String Ascii List ZArith Lia Bool.
Import ListNotations.
Open Scope string_scope.

(* ------------------------------------------------------------------ *)
(** ** Characters *)

Definition chr (n : nat) : ascii := ascii_of_nat n.

(** Python's [str.isspace] on the code points 0..255:
    [\t \n \x0b \x0c \r], [\x1c]..[\x1f], space, [\x85] and [\xa0]. *)
Definition isspace (c : ascii) : bool :=
  let n := nat_of_ascii c in
  ((9 <=? n) && (n <=? 13))%nat || ((28 <=? n) && (n <=? 32))%nat
  || (n =? 133)%nat || (n =? 160)%nat.

Definition squote : ascii := "'"%char.
Definition dquote : ascii := chr 34.
Definition DQ : string := String dquote EmptyString.
Definition bslash : ascii := "\"%char.
Definition newline : ascii := chr 10.

(** [current_word += c] *)
Definition snoc (s : string) (c : ascii) : string := s ++ String c EmptyString.

(* ------------------------------------------------------------------ *)
(** ** Tokenizer: [QuoteProcessor.split_input] (parser.py)

    The Python loop walks an index [i] over the input.  Its three branches
    (outside quotes, inside [' ... '], inside [" ... "]) become the three
    states of the machine below, which consumes the input from the left.

    - A run of whitespace is skipped and the current word flushed once if it
      is non-empty; flushing at every whitespace character of the run does the
      same, as the word is empty after the first one.
    - The two [raise ValueError(...)] happen exactly when the input is
      exhausted inside a quote ([if i >= n: raise ...] after the inner
      loop), so [run] returns the final state and [split_input] raises on a
      quoted final state. *)

Inductive qstate := Normal | InSingleQuote | InDoubleQuote.

(** [if current_word != "": words.append(current_word); current_word = ""] *)
Definition flush (cur : string) (words : list string) : list string :=
  if String.eqb cur "" then words else words ++ [cur].

(** The characters a backslash escapes inside double quotes. *)
Definition dq_escapable (c : ascii) : bool :=
  Ascii.eqb c dquote || Ascii.eqb c bslash || Ascii.eqb c "$"%char
  || Ascii.eqb c newline.

Fixpoint run (st : qstate) (cs : string) (cur : string) (words : list string)
  : qstate * string * list string :=
  match cs with
  | EmptyString => (st, cur, words)
  | String c rest =>
      match st with
      | Normal =>
          if isspace c then run Normal rest "" (flush cur words)
          else if Ascii.eqb c squote then run InSingleQuote rest cur words
          else if Ascii.eqb c dquote then run InDoubleQuote rest cur words
          else if Ascii.eqb c bslash then
            match rest with
            | String c2 rest2 => run Normal rest2 (snoc cur c2) words
            | EmptyString => run Normal rest (snoc cur bslash) words
            end
          else run Normal rest (snoc cur c) words
      | InSingleQuote =>
          if Ascii.eqb c squote then run Normal rest cur words
          else run InSingleQuote rest (snoc cur c) words
      | InDoubleQuote =>
          if Ascii.eqb c dquote then run Normal rest cur words
          else if Ascii.eqb c bslash then
            match rest with
            | String c2 rest2 =>
                if dq_escapable c2 then run InDoubleQuote rest2 (snoc cur c2) words
                else run InDoubleQuote rest2 (snoc (snoc cur bslash) c2) words
            | EmptyString => run InDoubleQuote rest (snoc cur bslash) words
            end
          else run InDoubleQuote rest (snoc cur c) words
      end
  end.

(** Result of [split_input]: the word list, or the message of the
    [ValueError] it raises. *)
Inductive tok_result := TokOk (ws : list string) | TokErr (msg : string).

Definition unclosed_single_msg := "Unclosed single quote in input".
Definition unclosed_double_msg := "Unclosed double quote in input".

Definition split_input (user_input : string) : tok_result :=
  match run Normal user_input "" [] with
  | (Normal, cur, words) => TokOk (flush cur words)
  | (InSingleQuote, _, _) => TokErr unclosed_single_msg
  | (InDoubleQuote, _, _) => TokErr unclosed_double_msg
  end.

(** The state in which the tokenizer reaches the end of the input. *)
Definition final_state (user_input : string) : qstate :=
  match run Normal user_input "" [] with (st, _, _) => st end.

Example split_input_ex1 :
  split_input "echo 'hello   world'" = TokOk ["echo"; "hello   world"].
Proof. reflexivity. Qed.

Example split_input_ex2 :
  split_input ("echo a'b'c" ++ DQ ++ "d" ++ DQ ++ " x") = TokOk ["echo"; "abcd"; "x"].
Proof. reflexivity. Qed.

Example split_input_ex3 : split_input "echo 'abc" = TokErr unclosed_single_msg.
Proof. reflexivity. Qed.

(* ------------------------------------------------------------------ *)
(** ** Python's [int(s)] on a string, base 10

    [int] strips surrounding whitespace, accepts one optional sign and then
    decimal digits in which single underscores may separate two digits
    ([int("1_000") = 1000]); leading zeros are allowed in base 10.  Python
    integers are unbounded, but CPython refuses to convert a numeral of more
    than [sys.get_int_max_str_digits()] digits (4300 by default), raising
    [ValueError]. *)

Fixpoint lstrip (s : string) : string :=
  match s with
  | String c r => if isspace c then lstrip r else s
  | EmptyString => EmptyString
  end.

Fixpoint rstrip_by (p : ascii -> bool) (s : string) : string :=
  match s with
  | String c r =>
      let r' := rstrip_by p r in
      if String.eqb r' "" && p c then "" else String c r'
  | EmptyString => EmptyString
  end.

(** [str.strip()] *)
Definition strip (s : string) : string := rstrip_by isspace (lstrip s).

Definition is_digit (c : ascii) : bool :=
  let n := nat_of_ascii c in ((48 <=? n) && (n <=? 57))%nat.

Definition digit_val (c : ascii) : Z := Z.of_nat (nat_of_ascii c - 48).

(** The digits after the first one: [_? digit] repeated. *)
Fixpoint int_digits (s : string) (acc : Z) : option Z :=
  match s with
  | EmptyString => Some acc
  | String c r =>
      if is_digit c then int_digits r (acc * 10 + digit_val c)%Z
      else if Ascii.eqb c "_"%char then
        match r with
        | String d r' =>
            if is_digit d then int_digits r' (acc * 10 + digit_val d)%Z else None
        | EmptyString => None
        end
      else None
  end.

Definition int_unsigned (s : string) : option Z :=
  match s with
  | String d r => if is_digit d then int_digits r (digit_val d) else None
  | EmptyString => None
  end.

(** The whitespace [int()] skips around the numeral.  CPython's
    [PyLong_FromUnicodeObject] first replaces every character from [\x7f] on
    that [str.isspace] accepts by a space, keeping the characters below
    [\x7f] as they are, and [PyLong_FromString] then skips the C [isspace]
    characters [\t\n\v\f\r] and space: [\x85] and [\xa0] are skipped, the
    separators [\x1c]..[\x1f] are not. *)
Definition int_space (c : ascii) : bool :=
  let n := nat_of_ascii c in
  ((9 <=? n) && (n <=? 13))%nat || (n =? 32)%nat || (n =? 133)%nat || (n =? 160)%nat.

Fixpoint lstrip_by (p : ascii -> bool) (s : string) : string :=
  match s with
  | String c r => if p c then lstrip_by p r else s
  | EmptyString => EmptyString
  end.

(** [sys.get_int_max_str_digits()] at its default. *)
Definition int_max_str_digits : nat := 4300.

Fixpoint count_digits (s : string) : nat :=
  match s with
  | EmptyString => 0
  | String c r => (if is_digit c then 1 else 0) + count_digits r
  end.

(** [int(s)]: [Some n] on success, [None] where it raises [ValueError].
    [PyLong_FromString] counts the digits of the numeral (underscores not
    included) and raises when there are more than [int_max_str_digits];
    a string with that many digits raises whether or not its syntax is
    valid, so the count is taken first here. *)
Definition py_int (s : string) : option Z :=
  if (int_max_str_digits <? count_digits s)%nat then None else
  match rstrip_by int_space (lstrip_by int_space s) with
  | String c r =>
      if Ascii.eqb c "-"%char then option_map Z.opp (int_unsigned r)
      else if Ascii.eqb c "+"%char then int_unsigned r
      else int_unsigned (String c r)
  | EmptyString => None
  end.

Example py_int_ex1 : py_int " -1_0 " = Some (-10)%Z.
Proof. reflexivity. Qed.
Example py_int_ex2 : py_int "1__0" = None.
Proof. reflexivity. Qed.
Example py_int_ex3 : py_int "abc" = None.
Proof. reflexivity. Qed.
Example py_int_ex4 :
  py_int (String (ascii_of_nat 28) "5") = None
  /\ py_int (String (ascii_of_nat 133) (String (ascii_of_nat 160) "5")) = Some 5%Z.
Proof. split; reflexivity. Qed.

(* ------------------------------------------------------------------ *)
(** ** Paths: [os.path.join], [os.path.expanduser], [str.split(":")] *)

Fixpoint last_char (s : string) : option ascii :=
  match s with
  | EmptyString => None
  | String c EmptyString => Some c
  | String _ r => last_char r
  end.

Definition starts_with_slash (s : string) : bool :=
  match s with String c _ => Ascii.eqb c "/"%char | EmptyString => false end.

(** [posixpath.join(a, b)] for two components. *)
Definition path_join (a b : string) : string :=
  if starts_with_slash b then b
  else match last_char a with
       | None => b
       | Some c => if Ascii.eqb c "/"%char then a ++ b else a ++ "/" ++ b
       end.

(** [s.split(sep)]: ["".split(":") = [""]]. *)
Fixpoint split_on (sep : ascii) (s : string) : list string :=
  match s with
  | EmptyString => [""]
  | String c r =>
      let parts := split_on sep r in
      if Ascii.eqb c sep then "" :: parts
      else match parts with
           | p :: ps => String c p :: ps
           | [] => [String c ""]
           end
  end.

(** [path[1:i]] and [path[i:]] where [i = path.find("/", 1)] (or [len(path)]),
    given [path[1:]]. *)
Fixpoint break_at_slash (s : string) : string * string :=
  match s with
  | EmptyString => ("", "")
  | String c r =>
      if Ascii.eqb c "/"%char then ("", s)
      else let (a, b) := break_at_slash r in (String c a, b)
  end.

(** The operating system as seen by the shell: the environment and the
    results of the system calls it makes. *)
Inductive chdir_res :=
  | ChdirOk (new_cwd : string)
  | ChdirNotFound           (* FileNotFoundError *)
  | ChdirNotADirectory      (* NotADirectoryError *)
  | ChdirPermission         (* PermissionError *)
  | ChdirOtherError (msg : string).  (* any other OSError, e.g. ENAMETOOLONG *)

(** What [subprocess.run] gives, with the files as the child process (if
    it started) left them. *)
Inductive proc_res :=
  | ProcDone (out err : string) (fs : string -> option string)
                                  (* [result.stdout], [result.stderr] *)
  | ProcFailed (msg : string) (fs : string -> option string).
                                  (* [subprocess.run] raised, e.g. when the
                                     executable cannot be started or its
                                     output does not decode *)

Record os := {
  os_home : option string;                  (* home of [~]: $HOME or the passwd entry *)
  os_user_home : string -> option string;   (* passwd lookup for [~user] *)
  os_path : option string;                  (* [os.environ.get("PATH")] *)
  os_exists : string -> bool;               (* [os.path.exists] on an absolute path *)
  os_is_exec_file : string -> bool;         (* [os.path.isfile(p) and os.access(p, os.X_OK)] *)
  os_chdir : string -> chdir_res;           (* [os.chdir] on an absolute path *)
  os_run : string -> string -> list string -> (string -> option string) -> proc_res;
                                            (* [subprocess.run]: cwd, executable, argv, files *)
  os_open_w : string -> option string;      (* [open(p, "w")]: [None] on success, else [str(e)] *)
  os_write_w : string -> string -> option (string * string)
                                            (* [f.write(text)] and the close on the file [p]
                                               just opened: [None] on success, else
                                               [Some (kept, str(e))] where [kept] is what
                                               the file holds afterwards (e.g. [ENOSPC]) *)
}.

(** [posixpath.expanduser] *)
Definition expanduser (o : os) (p : string) : string :=
  match p with
  | String c rest =>
      if Ascii.eqb c "~"%char then
        let (name, tail) := break_at_slash rest in
        let userhome := if String.eqb name "" then os_home o else os_user_home o name in
        match userhome with
        | None => p
        | Some h =>
            let r := rstrip_by (fun c => Ascii.eqb c "/"%char) h ++ tail in
            if String.eqb r "" then "/" else r
        end
      else p
  | EmptyString => p
  end.

(** [os.environ.get("PATH", "").split(os.pathsep)] *)
Definition path_dirs (o : os) : list string :=
  split_on ":"%char (match os_path o with Some p => p | None => "" end).

(** The absolute path the OS resolves a path argument to. *)
Definition abspath (cwd p : string) : string := path_join cwd p.

Example path_join_ex : path_join "/usr/bin" "ls" = "/usr/bin/ls"
  /\ path_join "/usr/bin/" "ls" = "/usr/bin/ls" /\ path_join "" "ls" = "ls"
  /\ path_join "/usr/bin" "/bin/ls" = "/bin/ls".
Proof. repeat split; reflexivity. Qed.

Example split_on_ex : split_on ":"%char "/a::/b" = ["/a"; ""; "/b"].
Proof. reflexivity. Qed.

(* ------------------------------------------------------------------ *)
(** ** Commands (commands.py) *)

Inductive Command :=
  | HelpCommand
  | ExitCommand (exit_code : Z)
  | EchoCommand (message : string)
  | PwdCommand
  | CdCommand (target_directory : string)
  | TypeCommand (command_name : string)
  | InvalidCommand (command_name : string)
  | ExternalCommand (command_name : string) (arguments : list string)
  | RedirectCommand (command : Command) (filename : string).

(* ------------------------------------------------------------------ *)
(** ** Resolver: [CommandFactory.get_command] (command_factory.py) *)

Definition is_redir_op (t : string) : bool := String.eqb t ">" || String.eqb t "1>".

(** [for i, token in enumerate(tokens): if token in (">", "1>"): ... break] *)
Fixpoint find_redir_from (i : nat) (toks : list string) : option nat :=
  match toks with
  | [] => None
  | t :: ts => if is_redir_op t then Some i else find_redir_from (S i) ts
  end.

Definition find_redir (toks : list string) : option nat := find_redir_from 0 toks.

Definition no_file_msg := "No file specified for redirection".

(** Everything [get_command] does after [split_input] succeeded.  The
    recursive call [CommandFactory.get_command(" ".join(command_tokens))] is
    the parameter [get_command]. *)
Definition resolve_with (o : os) (get_command : string -> Command)
    (tokens : list string) : Command :=
  match tokens with
  | [] => InvalidCommand ""
  | command_name :: args =>
      match find_redir tokens with
      | Some redir_index =>
          if Nat.eqb redir_index (length tokens - 1) then InvalidCommand no_file_msg
          else
            let redir_target := nth (S redir_index) tokens "" in
            let command_tokens := firstn redir_index tokens in
            let command_str := String.concat " " command_tokens in
            RedirectCommand (get_command command_str) redir_target
      | None =>
          if String.eqb command_name "help" then HelpCommand
          else if String.eqb command_name "exit" then
            match args with
            | [] => ExitCommand 0
            | a :: _ =>
                match py_int a with
                | Some exit_code => ExitCommand exit_code
                | None => InvalidCommand "exit"
                end
            end
          else if String.eqb command_name "echo" then
            EchoCommand (if (1 <? length tokens)%nat then String.concat " " args else "")
          else if String.eqb command_name "pwd" then PwdCommand
          else if String.eqb command_name "cd" then
            CdCommand (match args with a :: _ => a | [] => expanduser o "~" end)
          else if String.eqb command_name "type" then
            match args with
            | a :: _ => TypeCommand a
            | [] => InvalidCommand "type"
            end
          else ExternalCommand command_name args
      end
  end.

(** [get_command] with a bound on its recursion depth.  Each recursive call
    is on a string strictly shorter than its caller's (lemma
    [get_command_unfold] below), so the bound [length user_input + 1] used
    by [get_command] is never reached. *)
Fixpoint get_command_fuel (o : os) (fuel : nat) (user_input : string) : Command :=
  match fuel with
  | O => InvalidCommand ""
  | S fuel' =>
      match split_input user_input with
      | TokErr e => InvalidCommand e
      | TokOk tokens => resolve_with o (get_command_fuel o fuel') tokens
      end
  end.

Definition get_command (o : os) (user_input : string) : Command :=
  get_command_fuel o (S (String.length user_input)) user_input.

(** The resolver on a token sequence, as [get_command] runs it once
    [split_input] has produced [tokens]. *)
Definition resolve_tokens (o : os) (tokens : list string) : Command :=
  resolve_with o (get_command o) tokens.

(* ------------------------------------------------------------------ *)
(** ** Execution: the [execute] methods (commands.py)

    The world the commands act on: the current directory, the contents of the
    files (by absolute path) and the text written to standard error. *)

Record world := {
  cwd : string;
  files : string -> option string;
  stderr : string
}.

Definition set_cwd (w : world) (d : string) : world :=
  {| cwd := d; files := files w; stderr := stderr w |}.

Definition set_file (w : world) (p contents : string) : world :=
  {| cwd := cwd w;
     files := fun q => if String.eqb q p then Some contents else files w q;
     stderr := stderr w |}.

Definition set_files (w : world) (fs : string -> option string) : world :=
  {| cwd := cwd w; files := fs; stderr := stderr w |}.

(** [print(msg, file=sys.stderr, end=...)] *)
Definition log_err (w : world) (msg : string) : world :=
  {| cwd := cwd w; files := files w; stderr := stderr w ++ msg |}.

(** What [execute()] does: return a string, return [None] (a method that
    falls off its end), raise [SystemExit(code)] ([sys.exit]) or raise
    another exception. *)
Inductive outcome :=
  | Out (text : string)
  | NoneOut
  | Terminate (code : Z)
  | Raised (msg : string).

Definition help_text :=
  "Available commands: help, exit, echo [message], type [command], pwd, cd [directory]".

Definition builtins := ["help"; "exit"; "echo"; "type"; "pwd"; "cd"].

Definition in_list (x : string) (l : list string) : bool :=
  existsb (String.eqb x) l.

(** [CdCommand.execute]: only the three listed exceptions are caught. *)
Definition cd_execute (o : os) (w : world) (target_directory : string) : outcome * world :=
  let target := expanduser o target_directory in
  match os_chdir o (abspath (cwd w) target) with
  | ChdirOk d => (NoneOut, set_cwd w d)
  | ChdirNotFound =>
      (Out ("cd: " ++ target_directory ++ ": No such file or directory"), w)
  | ChdirNotADirectory => (Out ("cd: " ++ target_directory ++ ": Not a directory"), w)
  | ChdirPermission => (Out ("cd: " ++ target_directory ++ ": Permission denied"), w)
  | ChdirOtherError e => (Raised e, w)
  end.

(** The [for path_dir in path_dirs] loop of [TypeCommand.execute]. *)
Fixpoint type_search (o : os) (w : world) (command_name : string) (dirs : list string)
  : string :=
  match dirs with
  | [] => command_name ++ ": not found"
  | path_dir :: rest =>
      let command_path := path_join path_dir command_name in
      if os_exists o (abspath (cwd w) command_path)
      then command_name ++ " is " ++ command_path
      else type_search o w command_name rest
  end.

Definition type_execute (o : os) (w : world) (command_name : string) : string :=
  if in_list command_name builtins then command_name ++ " is a shell builtin"
  else type_search o w command_name (path_dirs o).

(** The [for directory in path_dirs] loop of [ExternalCommand.execute]. *)
Fixpoint external_search (o : os) (w : world) (command_name : string)
    (arguments : list string) (dirs : list string) : outcome * world :=
  match dirs with
  | [] => (Out (command_name ++ ": command not found"), w)
  | directory :: rest =>
      let full_path := path_join directory command_name in
      if os_is_exec_file o (abspath (cwd w) full_path) then
        match os_run o (cwd w) full_path (command_name :: arguments) (files w) with
        | ProcDone out err fs =>
            let w' := set_files w fs in
            (Out out, if String.eqb err "" then w' else log_err w' err)
        | ProcFailed e fs =>
            (Out ("Error while executing " ++ command_name ++ ": " ++ e), set_files w fs)
        end
      else external_search o w command_name arguments rest
  end.

Definition write_none_msg := "write() argument must be str, not None".

(** The [try: with open(self.filename, "w") as f: f.write(output)] block of
    [RedirectCommand.execute]; [output] is [None] when the inner command
    returned [None].  A successful [open] truncates or creates the file;
    [f.write(None)] raises [TypeError] before anything is written (the close
    of that empty file is taken to succeed). *)
Definition redirect_write (o : os) (w : world) (filename : string)
    (output : option string) : world :=
  let p := abspath (cwd w) filename in
  match os_open_w o p with
  | Some e => log_err w ("Error writing to file " ++ filename ++ ": " ++ e ++ String newline "")
  | None =>
      match output with
      | Some text =>
          match os_write_w o p text with
          | None => set_file w p text
          | Some (kept, e) =>
              log_err (set_file w p kept)
                ("Error writing to file " ++ filename ++ ": " ++ e ++ String newline "")
          end
      | None =>
          log_err (set_file w p "")
            ("Error writing to file " ++ filename ++ ": " ++ write_none_msg ++ String newline "")
      end
  end.

Fixpoint execute (o : os) (c : Command) (w : world) : outcome * world :=
  match c with
  | HelpCommand => (Out help_text, w)
  | ExitCommand code => (Terminate code, w)
  | EchoCommand message => (Out message, w)
  | PwdCommand => (Out (cwd w), w)
  | CdCommand t => cd_execute o w t
  | TypeCommand n => (Out (type_execute o w n), w)
  | InvalidCommand n => (Out (n ++ ": command not found"), w)
  | ExternalCommand n args => external_search o w n args (path_dirs o)
  | RedirectCommand inner filename =>
      match execute o inner w with
      | (Out text, w1) => (Out "", redirect_write o w1 filename (Some text))
      | (NoneOut, w1) => (Out "", redirect_write o w1 filename None)
      | (r, w1) => (r, w1)
      end
  end.

(** One iteration of [Shell.loop] (shell.py) on the line [input()] returned:
    it prints the output if it is a non-empty string; [SystemExit] ends the
    process with its code; any other exception escapes the loop, which only
    catches [KeyboardInterrupt] and [EOFError], and ends the process. *)
Inductive loop_result :=
  | Continue (printed : string) (w : world)
  | Halt (code : Z)
  | Crash (msg : string).

Definition shell_step (o : os) (w : world) (line : string) : loop_result :=
  let command := get_command o (strip line) in
  match execute o command w with
  | (Out s, w') => Continue (if String.eqb s "" then "" else s ++ String newline "") w'
  | (NoneOut, w') => Continue "" w'
  | (Terminate code, _) => Halt code
  | (Raised e, _) => Crash e
  end.

(* ------------------------------------------------------------------ *)
(** ** Auxiliary definitions for the statements *)

(** A token that [split_input] reads back unchanged: no whitespace, no quote
    and no backslash. *)
Definition plain_char (c : ascii) : bool :=
  negb (isspace c || Ascii.eqb c squote || Ascii.eqb c dquote || Ascii.eqb c bslash).

Fixpoint all_chars (p : ascii -> bool) (s : string) : bool :=
  match s with
  | EmptyString => true
  | String c r => p c && all_chars p r
  end.

Definition plain_token (t : string) : Prop :=
  t <> "" /\ all_chars plain_char t = true.

(** A sample operating system and world used by the concrete statements. *)
Definition demo_os : os := {|
  os_home := Some "/home/user";
  os_user_home := fun _ => None;
  os_path := Some "/usr/bin:/bin";
  os_exists := fun p => String.eqb p "/usr/bin/ls" || String.eqb p "/home/user/ls";
  os_is_exec_file := fun p => String.eqb p "/usr/bin/ls";
  os_chdir := fun p =>
    if String.eqb p "/tmp" then ChdirOk "/tmp"
    else if String.eqb p "/home/user/loop" then ChdirOtherError "[Errno 40] Too many levels of symbolic links"
    else ChdirNotFound;
  os_run := fun _ _ _ fs => ProcDone "" "" fs;
  os_open_w := fun _ => None;
  os_write_w := fun _ _ => None
|}.

Definition demo_world : world := {|
  cwd := "/home/user";
  files := fun _ => None;
  stderr := ""
|}.

(** The value of a string of decimal digits. *)
Fixpoint dec_acc (s : string) (acc : Z) : Z :=
  match s with
  | EmptyString => acc
  | String c r => dec_acc r (acc * 10 + digit_val c)%Z
  end.

Definition dec_value (s : string) : Z := dec_acc s 0.

(** Characters a double-quoted segment takes literally: no closing quote
    and no backslash. *)
Definition dq_plain (c : ascii) : bool := negb (Ascii.eqb c dquote || Ascii.eqb c bslash).

(** What a backslash followed by [c] contributes inside double quotes. *)
Definition dq_escape (c : ascii) : string :=
  if dq_escapable c then String c EmptyString else String bslash (String c EmptyString).

(** [demo_os] with no [PATH] in the environment. *)
Definition demo_os_nopath : os := {|
  os_home := os_home demo_os;
  os_user_home := os_user_home demo_os;
  os_path := None;
  os_exists := os_exists demo_os;
  os_is_exec_file := os_is_exec_file demo_os;
  os_chdir := os_chdir demo_os;
  os_run := os_run demo_os;
  os_open_w := os_open_w demo_os;
  os_write_w := os_write_w demo_os
|}.

(** Whether a command is, or wraps, a [CdCommand]. *)
Fixpoint mentions_cd (c : Command) : bool :=
  match c with
  | CdCommand _ => true
  | RedirectCommand inner _ => mentions_cd inner
  | _ => false
  end.

(** Whether a command may change files: an external program or a
    redirection. *)
Definition may_write (c : Command) : bool :=
  match c with
  | ExternalCommand _ _ | RedirectCommand _ _ => true
  | _ => false
  end.

(** [n] slashes. *)
Fixpoint slashes (n : nat) : string :=
  match n with
  | O => ""
  | S k => String "/"%char (slashes k)
  end.

(* ================================================================== *)
(** * Lemmas *)

(** ** Lengths *)

Lemma str_length_app : forall s t : string,
  String.length (s ++ t) = String.length s + String.length t.
Proof. induction s; simpl; auto. Qed.

Lemma str_length_snoc : forall s c, String.length (snoc s c) = S (String.length s).
Proof. intros. unfold snoc. rewrite str_length_app. simpl. lia. Qed.

(** Each word counts its length plus one separator. *)
Definition words_measure (ws : list string) : nat :=
  fold_right (fun w a => String.length w + 1 + a) 0 ws.

Lemma words_measure_app : forall l1 l2,
  words_measure (l1 ++ l2) = words_measure l1 + words_measure l2.
Proof. induction l1; simpl; intros; auto. rewrite IHl1. lia. Qed.

Lemma flush_measure : forall cur words,
  words_measure (flush cur words) <= words_measure words + String.length cur + 1.
Proof.
  intros. unfold flush. destruct (String.eqb cur "").
  - lia.
  - rewrite words_measure_app. simpl. lia.
Qed.

Lemma flush_measure_empty : forall cur words,
  cur = "" -> words_measure (flush cur words) = words_measure words.
Proof. intros; subst; reflexivity. Qed.

Lemma run_measure : forall n cs st cur words, String.length cs <= n ->
  match run st cs cur words with
  | (_, cur', words') =>
      words_measure words' + String.length cur'
      <= words_measure words + String.length cur + String.length cs
  end.
Proof.
  induction n as [|n IH]; intros cs st cur words Hn.
  - destruct cs; simpl in *; [lia | lia].
  - destruct cs as [|c rest]; simpl in Hn |- *; [lia|].
    assert (Hr : forall st' cur' words',
      words_measure words' + String.length cur'
        <= words_measure words + String.length cur + 1 ->
      match run st' rest cur' words' with
      | (_, cur'', words'') =>
          words_measure words'' + String.length cur''
          <= words_measure words + String.length cur + S (String.length rest)
      end).
    { intros st' cur' words' H.
      pose proof (IH rest st' cur' words' ltac:(lia)) as Hi.
      destruct (run st' rest cur' words') as [[? ?] ?]. lia. }
    assert (Hr2 : forall st' c2 rest2 cur' words',
      rest = String c2 rest2 ->
      words_measure words' + String.length cur'
        <= words_measure words + String.length cur + 2 ->
      match run st' rest2 cur' words' with
      | (_, cur'', words'') =>
          words_measure words'' + String.length cur''
          <= words_measure words + String.length cur + S (String.length rest)
      end).
    { intros st' c2 rest2 cur' words' Heq H. subst rest. simpl in Hn |- *.
      pose proof (IH rest2 st' cur' words' ltac:(lia)) as Hi.
      destruct (run st' rest2 cur' words') as [[? ?] ?]. lia. }
    destruct st.
    + destruct (isspace c).
      { apply Hr. pose proof (flush_measure cur words). simpl. lia. }
      destruct (Ascii.eqb c squote); [apply Hr; lia|].
      destruct (Ascii.eqb c dquote); [apply Hr; lia|].
      destruct (Ascii.eqb c bslash).
      * destruct rest as [|c2 rest2] eqn:E.
        -- apply Hr. rewrite str_length_snoc. lia.
        -- apply (Hr2 _ c2 rest2); [reflexivity|]. rewrite str_length_snoc. lia.
      * apply Hr. rewrite str_length_snoc. lia.
    + destruct (Ascii.eqb c squote); apply Hr; try rewrite str_length_snoc; lia.
    + destruct (Ascii.eqb c dquote); [apply Hr; lia|].
      destruct (Ascii.eqb c bslash).
      * destruct rest as [|c2 rest2] eqn:E.
        -- apply Hr. rewrite str_length_snoc. lia.
        -- destruct (dq_escapable c2);
             (apply (Hr2 _ c2 rest2); [reflexivity|]); rewrite ?str_length_snoc; lia.
      * apply Hr. rewrite str_length_snoc. lia.
Qed.

Lemma split_input_measure : forall s tokens,
  split_input s = TokOk tokens -> words_measure tokens <= String.length s + 1.
Proof.
  intros s tokens H. unfold split_input in H.
  pose proof (run_measure (String.length s) s Normal "" [] (le_n _)) as Hm.
  destruct (run Normal s "" []) as [[st cur] words].
  destruct st; inversion H; subst.
  pose proof (flush_measure cur words). simpl in Hm. lia.
Qed.

Lemma concat_measure : forall l,
  String.length (String.concat " " l) <= words_measure l.
Proof.
  induction l as [|x l IH]; simpl; [lia|].
  destruct l as [|y l'].
  - lia.
  - rewrite str_length_app. simpl. simpl in IH. lia.
Qed.

Lemma find_redir_from_spec : forall toks k i,
  find_redir_from k toks = Some i ->
  k <= i /\ i - k < length toks /\ is_redir_op (nth (i - k) toks "") = true.
Proof.
  induction toks as [|t ts IH]; simpl; intros k i H; [discriminate|].
  destruct (is_redir_op t) eqn:E.
  - inversion H; subst. rewrite Nat.sub_diag. simpl. auto with arith.
  - destruct (IH (S k) i H) as (H1 & H2 & H3). split; [lia|].
    replace (i - k) with (S (i - S k)) by lia. simpl. split; [lia | exact H3].
Qed.

Lemma find_redir_spec : forall toks i,
  find_redir toks = Some i ->
  i < length toks /\ is_redir_op (nth i toks "") = true.
Proof.
  intros toks i H. destruct (find_redir_from_spec toks 0 i H) as (_ & H2 & H3).
  rewrite Nat.sub_0_r in *. auto.
Qed.

Lemma redir_op_length : forall t, is_redir_op t = true -> 1 <= String.length t.
Proof.
  intros t H. destruct t; [discriminate | simpl; lia].
Qed.

Lemma firstn_skipn_measure : forall i l,
  words_measure l = words_measure (firstn i l) + words_measure (skipn i l).
Proof. intros. rewrite <- words_measure_app, firstn_skipn. reflexivity. Qed.

(** The string the redirect case resolves again is shorter than the input. *)
Lemma redirect_inner_shorter : forall s tokens i,
  split_input s = TokOk tokens -> find_redir tokens = Some i ->
  i <> length tokens - 1 ->
  String.length (String.concat " " (firstn i tokens)) < String.length s.
Proof.
  intros s tokens i Hs Hf Hi.
  pose proof (split_input_measure s tokens Hs) as Hm.
  destruct (find_redir_spec tokens i Hf) as [Hlt Hop].
  pose proof (concat_measure (firstn i tokens)) as Hc.
  rewrite (firstn_skipn_measure i tokens) in Hm.
  assert (Hsk : 3 <= words_measure (skipn i tokens)).
  { rewrite <- (firstn_skipn i tokens) in Hop.
    rewrite app_nth2 in Hop by (rewrite length_firstn; lia).
    rewrite length_firstn, Nat.min_l in Hop by lia. rewrite Nat.sub_diag in Hop.
    assert (Hlen : length (skipn i tokens) = length tokens - i) by apply length_skipn.
    destruct (skipn i tokens) as [|a [|b rest]]; simpl in Hlen, Hop |- *; [lia|lia|].
    pose proof (redir_op_length a Hop). lia. }
  lia.
Qed.

(** ** The recursion of [get_command] never runs out of fuel *)

Lemma resolve_with_ext : forall o g1 g2 tokens,
  (forall i, find_redir tokens = Some i -> i <> length tokens - 1 ->
     g1 (String.concat " " (firstn i tokens)) = g2 (String.concat " " (firstn i tokens))) ->
  resolve_with o g1 tokens = resolve_with o g2 tokens.
Proof.
  intros o g1 g2 tokens H. unfold resolve_with.
  destruct tokens as [|t ts]; [reflexivity|].
  destruct (find_redir (t :: ts)) as [i|] eqn:Ef; [|reflexivity].
  destruct (Nat.eqb i (length (t :: ts) - 1)) eqn:Ei; [reflexivity|].
  apply Nat.eqb_neq in Ei. rewrite (H i eq_refl Ei). reflexivity.
Qed.

Lemma get_command_fuel_enough : forall o f1 f2 s,
  String.length s < f1 -> String.length s < f2 ->
  get_command_fuel o f1 s = get_command_fuel o f2 s.
Proof.
  intros o. induction f1 as [|f1 IH]; intros f2 s H1 H2; [lia|].
  destruct f2 as [|f2]; [lia|]. simpl.
  destruct (split_input s) as [tokens|e] eqn:Es; [|reflexivity].
  apply resolve_with_ext. intros i Hf Hi.
  pose proof (redirect_inner_shorter s tokens i Es Hf Hi). apply IH; lia.
Qed.

(** The defining equation of [CommandFactory.get_command]. *)
Lemma get_command_unfold : forall o s,
  get_command o s =
  match split_input s with
  | TokErr e => InvalidCommand e
  | TokOk tokens => resolve_tokens o tokens
  end.
Proof.
  intros o s. unfold get_command, resolve_tokens. simpl.
  destruct (split_input s) as [tokens|e] eqn:Es; [|reflexivity].
  apply resolve_with_ext. intros i Hf Hi.
  pose proof (redirect_inner_shorter s tokens i Es Hf Hi).
  unfold get_command. apply get_command_fuel_enough; lia.
Qed.

(** ** Plain tokens survive the re-join of the redirect case *)

Lemma str_app_assoc : forall a b c : string, (a ++ b) ++ c = a ++ (b ++ c).
Proof. induction a; simpl; intros; [reflexivity | now rewrite IHa]. Qed.

Lemma str_app_nil : forall a : string, a ++ "" = a.
Proof. induction a; simpl; [reflexivity | now rewrite IHa]. Qed.

Lemma run_plain : forall w r cur words,
  all_chars plain_char w = true ->
  run Normal (w ++ r) cur words = run Normal r (cur ++ w) words.
Proof.
  induction w as [|c w IH]; intros r cur words H.
  - simpl. now rewrite str_app_nil.
  - simpl in H. apply andb_prop in H as [Hc Hw].
    unfold plain_char in Hc.
    destruct (isspace c) eqn:E1, (Ascii.eqb c squote) eqn:E2,
             (Ascii.eqb c dquote) eqn:E3, (Ascii.eqb c bslash) eqn:E4;
      try discriminate Hc.
    simpl. rewrite E1, E2, E3, E4. rewrite IH by exact Hw.
    unfold snoc. now rewrite str_app_assoc.
Qed.

Lemma run_concat_plain : forall ts words,
  ts <> [] -> Forall plain_token ts ->
  run Normal (String.concat " " ts) "" words
  = (Normal, last ts "", (words ++ removelast ts)%list).
Proof.
  induction ts as [|t ts IH]; intros words Hne Hp; [congruence|].
  inversion Hp as [|? ? [Ht Htc] Hps]; subst.
  destruct ts as [|t2 ts'].
  - simpl. rewrite <- (str_app_nil t) at 1. rewrite run_plain by exact Htc.
    simpl. now rewrite app_nil_r.
  - change (String.concat " " (t :: t2 :: ts')) with (t ++ " " ++ String.concat " " (t2 :: ts')).
    rewrite run_plain by exact Htc. simpl.
    unfold flush. destruct (String.eqb t "") eqn:Et.
    + apply String.eqb_eq in Et. contradiction.
    + rewrite IH by (discriminate || exact Hps). now rewrite <- app_assoc.
Qed.

Lemma last_in : forall (l : list string) d, l <> [] -> In (last l d) l.
Proof.
  induction l as [|x l IH]; intros d H; [congruence|].
  destruct l as [|y l']; [now left|].
  right. apply IH. discriminate.
Qed.

Lemma split_input_concat_plain : forall ts,
  Forall plain_token ts -> split_input (String.concat " " ts) = TokOk ts.
Proof.
  intros ts Hp. destruct ts as [|t ts']; [reflexivity|].
  unfold split_input. rewrite run_concat_plain by (discriminate || exact Hp).
  simpl app. unfold flush.
  assert (Hl : last (t :: ts') "" <> "").
  { pose proof (Forall_forall plain_token (t :: ts')) as [F _].
    specialize (F Hp). apply F.
    apply last_in. discriminate. }
  destruct (String.eqb (last (t :: ts') "") "") eqn:E.
  - apply String.eqb_eq in E. contradiction.
  - f_equal. symmetry. apply app_removelast_last. discriminate.
Qed.

(** ** Invariants of the tokenizer's word list *)

(** The word list only changes through [flush]. *)
Lemma run_words_invariant : forall (P : list string -> Prop),
  (forall cur words, P words -> P (flush cur words)) ->
  forall n cs st cur words, String.length cs <= n -> P words ->
  P (snd (run st cs cur words)).
Proof.
  intros P HP. induction n as [|n IH]; intros cs st cur words Hn Hw.
  - destruct cs; simpl in *; [exact Hw | lia].
  - destruct cs as [|c rest]; simpl in Hn |- *; [exact Hw|].
    assert (Hr : forall st' cur' words', P words' -> P (snd (run st' rest cur' words')))
      by (intros; apply IH; [lia | assumption]).
    assert (Hr2 : forall st' c2 rest2 cur' words', rest = String c2 rest2 ->
      P words' -> P (snd (run st' rest2 cur' words'))).
    { intros st' c2 rest2 cur' words' E H. subst rest. simpl in Hn.
      apply IH; [lia | exact H]. }
    destruct st;
      repeat match goal with
      | |- context [if ?b then _ else _] => destruct b
      | |- context [match rest with _ => _ end] => destruct rest as [|c2 rest2] eqn:E
      end;
      first [ apply Hr; first [apply HP; exact Hw | exact Hw]
            | eapply Hr2; [reflexivity | exact Hw] ].
Qed.

Lemma flush_nonempty : forall cur words,
  Forall (fun t => t <> "") words -> Forall (fun t => t <> "") (flush cur words).
Proof.
  intros cur words H. unfold flush.
  destruct (String.eqb cur "") eqn:E; [exact H|].
  apply Forall_app. split; [exact H|]. constructor; [|constructor].
  intro Hc. subst. discriminate E.
Qed.

(** ** [int()] on decimal strings *)

Lemma rstrip_by_keep : forall p s,
  all_chars (fun c => negb (p c)) s = true -> rstrip_by p s = s.
Proof.
  intros p. induction s as [|c r IH]; intros H; [reflexivity|].
  simpl in H |- *. apply andb_prop in H as [Hc Hr].
  rewrite IH by exact Hr. apply negb_true_iff in Hc. rewrite Hc, andb_false_r.
  reflexivity.
Qed.

Lemma int_digits_dec : forall s acc,
  all_chars is_digit s = true -> int_digits s acc = Some (dec_acc s acc).
Proof.
  induction s as [|c r IH]; intros acc H; [reflexivity|].
  simpl in H |- *. apply andb_prop in H as [Hc Hr]. rewrite Hc. auto.
Qed.

Lemma int_unsigned_dec : forall s, s <> "" ->
  all_chars is_digit s = true -> int_unsigned s = Some (dec_value s).
Proof.
  intros [|d r] Hne H; [congruence|].
  simpl in H |- *. apply andb_prop in H as [Hd Hr]. rewrite Hd.
  rewrite int_digits_dec by exact Hr. reflexivity.
Qed.

Lemma digit_not_int_space : forall c, is_digit c = true -> int_space c = false.
Proof.
  intros c H. unfold is_digit, int_space in *.
  apply andb_prop in H as [H1 H2]. apply Nat.leb_le in H1, H2.
  destruct (9 <=? nat_of_ascii c)%nat eqn:E1, (nat_of_ascii c <=? 13)%nat eqn:E2,
           (nat_of_ascii c =? 32)%nat eqn:E4,
           (nat_of_ascii c =? 133)%nat eqn:E5, (nat_of_ascii c =? 160)%nat eqn:E6;
    simpl; try reflexivity;
    repeat match goal with
    | E : (_ <=? _)%nat = true |- _ => apply Nat.leb_le in E
    | E : (_ =? _)%nat = true |- _ => apply Nat.eqb_eq in E
    end; lia.
Qed.

Lemma all_digits_no_int_space : forall s,
  all_chars is_digit s = true -> all_chars (fun c => negb (int_space c)) s = true.
Proof.
  induction s as [|c r IH]; intros H; [reflexivity|].
  simpl in *. apply andb_prop in H as [Hc Hr].
  rewrite digit_not_int_space by exact Hc. simpl. auto.
Qed.

Lemma count_digits_all : forall s,
  all_chars is_digit s = true -> count_digits s = String.length s.
Proof.
  induction s as [|c r IH]; intros H; [reflexivity|].
  simpl in *. apply andb_prop in H as [Hc Hr]. rewrite Hc, IH by exact Hr. reflexivity.
Qed.

Lemma py_int_dec : forall s, s <> "" -> all_chars is_digit s = true ->
  (String.length s <= int_max_str_digits)%nat ->
  py_int s = Some (dec_value s) /\ py_int ("-" ++ s) = Some (- dec_value s)%Z.
Proof.
  intros [|d r] Hne H Hlen; [congruence|].
  pose proof H as H'. simpl in H'. apply andb_prop in H' as [Hd _].
  pose proof (count_digits_all _ H) as Hc.
  assert (Hlt : (int_max_str_digits <? count_digits (String d r))%nat = false)
    by (apply Nat.ltb_ge; lia).
  unfold py_int. split.
  - rewrite Hlt. simpl lstrip_by. rewrite digit_not_int_space by exact Hd.
    rewrite rstrip_by_keep by (apply all_digits_no_int_space; exact H).
    assert (Hm : Ascii.eqb d "-"%char = false)
      by (destruct (Ascii.eqb d "-"%char) eqn:E; [apply Ascii.eqb_eq in E; subst; discriminate|reflexivity]).
    assert (Hp : Ascii.eqb d "+"%char = false)
      by (destruct (Ascii.eqb d "+"%char) eqn:E; [apply Ascii.eqb_eq in E; subst; discriminate|reflexivity]).
    rewrite Hm, Hp. apply int_unsigned_dec; [discriminate | exact H].
  - assert (Hlt' : (int_max_str_digits <? count_digits ("-" ++ String d r))%nat = false)
      by (simpl count_digits; simpl in Hlt; exact Hlt).
    rewrite Hlt'. simpl lstrip_by. cbv beta iota.
    rewrite rstrip_by_keep.
    + simpl. simpl in H. apply andb_prop in H as [_ Hr].
      rewrite Hd, int_digits_dec by exact Hr. reflexivity.
    + simpl. apply all_digits_no_int_space in H. simpl in H. exact H.
Qed.

(** More digits than [int_max_str_digits]: [int()] raises. *)
Lemma py_int_too_long : forall s,
  (int_max_str_digits < count_digits s)%nat -> py_int s = None.
Proof.
  intros s H. unfold py_int. apply Nat.ltb_lt in H. rewrite H. reflexivity.
Qed.


(** ** Double-quoted segments *)

Lemma run_dq_plain : forall a r cur words,
  all_chars dq_plain a = true ->
  run InDoubleQuote (a ++ r) cur words = run InDoubleQuote r (cur ++ a) words.
Proof.
  induction a as [|c a IH]; intros r cur words H.
  - simpl. now rewrite str_app_nil.
  - simpl in H. apply andb_prop in H as [Hc Ha]. unfold dq_plain in Hc.
    destruct (Ascii.eqb c dquote) eqn:E1, (Ascii.eqb c bslash) eqn:E2; try discriminate Hc.
    simpl. rewrite E1, E2, IH by exact Ha. unfold snoc. now rewrite str_app_assoc.
Qed.

Lemma str_app_nonempty : forall a c b, String.eqb (a ++ String c b) "" = false.
Proof. intros [|x a] c b; reflexivity. Qed.

(* ================================================================== *)
(** * The claims *)

(** ** C1: the command before a redirection operator *)




(** ** C2: tokens are never empty *)

(** C2 (amended): every token [split_input] produces is a non-empty string,
    with no exception: a word is only appended when it is non-empty, so an
    empty-quoted segment with nothing adjacent contributes no token. *)
Theorem C2_tokens_nonempty : forall s tokens,
  split_input s = TokOk tokens -> Forall (fun t => t <> "") tokens.
Proof.
  intros s tokens H. unfold split_input in H.
  pose proof (run_words_invariant (Forall (fun t => t <> "")) flush_nonempty
                (String.length s) s Normal "" [] (le_n _) (Forall_nil _)) as Hw.
  destruct (run Normal s "" []) as [[st cur] words].
  destruct st; inversion H; subst. apply flush_nonempty. exact Hw.
Qed.

Lemma C2_witness :
  split_input "echo 'a b' c" = TokOk ["echo"; "a b"; "c"]
  /\ Forall (fun t => t <> "") ["echo"; "a b"; "c"].
Proof.
  assert (H : split_input "echo 'a b' c" = TokOk ["echo"; "a b"; "c"]) by reflexivity.
  split; [exact H|]. exact (C2_tokens_nonempty _ _ H).
Defined.

(** C2 (counterexample): [echo ''] gives the single token [echo], and [''] alone
    gives no token; no empty token is produced for the empty-quoted segment. *)
Lemma C2_empty_quote_counterexample :
  split_input "echo ''" = TokOk ["echo"] /\ split_input "''" = TokOk []
  /\ ~ In "" ["echo"].
Proof.
  split; [reflexivity|]. split; [reflexivity|].
  simpl. intros [H|H]; [discriminate | exact H].
Qed.

(** ** C3: [exit] and its code *)

(** C3 (amended): for tokens [exit :: rest] with no [">"] or ["1>"] token
    (a redirection operator is handled first): with no second token the
    result is [ExitCommand 0]; with a second token [a] it is [ExitCommand n]
    when Python's [int(a)] returns [n], and [InvalidCommand "exit"] when it
    raises.  [int] accepts surrounding whitespace ([\t\n\v\f\r], space,
    [\x85], [\xa0]), a sign and underscores between digits, and has no
    range: every decimal numeral [ds] of at most 4300 digits gives
    [ExitCommand ds] and [-ds] gives its negation; a second token with more
    than 4300 digits makes [int] raise and gives [InvalidCommand "exit"]. *)
Theorem C3_exit_resolution : forall o rest,
  find_redir ("exit" :: rest) = None ->
  (rest = [] -> resolve_tokens o ("exit" :: rest) = ExitCommand 0)
  /\ (forall a r n, rest = a :: r -> py_int a = Some n ->
        resolve_tokens o ("exit" :: rest) = ExitCommand n)
  /\ (forall a r, rest = a :: r -> py_int a = None ->
        resolve_tokens o ("exit" :: rest) = InvalidCommand "exit")
  /\ (forall ds r, ds <> "" -> all_chars is_digit ds = true ->
        (String.length ds <= int_max_str_digits)%nat ->
        (rest = ds :: r -> resolve_tokens o ("exit" :: rest) = ExitCommand (dec_value ds))
        /\ (rest = ("-" ++ ds) :: r ->
            resolve_tokens o ("exit" :: rest) = ExitCommand (- dec_value ds)%Z))
  /\ (forall a r, rest = a :: r -> (int_max_str_digits < count_digits a)%nat ->
        resolve_tokens o ("exit" :: rest) = InvalidCommand "exit").
Proof.
  intros o rest Hf.
  assert (Hr : resolve_tokens o ("exit" :: rest) =
    match rest with
    | [] => ExitCommand 0
    | a :: _ => match py_int a with
                | Some n => ExitCommand n
                | None => InvalidCommand "exit"
                end
    end).
  { unfold resolve_tokens, resolve_with. rewrite Hf. reflexivity. }
  rewrite Hr. clear Hr.
  split; [intros ->; reflexivity|].
  split; [intros a r n -> Hn; rewrite Hn; reflexivity|].
  split; [intros a r -> Hn; rewrite Hn; reflexivity|].
  split.
  - intros ds r Hne Hd Hl. destruct (py_int_dec ds Hne Hd Hl) as [H1 H2].
    split; intros ->; [rewrite H1 | rewrite H2]; reflexivity.
  - intros a r -> Hl. rewrite py_int_too_long by exact Hl. reflexivity.
Qed.

Lemma C3_witness :
  find_redir ["exit"; "3"] = None
  /\ ((["3"] : list string) = [] -> resolve_tokens demo_os ("exit" :: ["3"]) = ExitCommand 0)
  /\ (forall a r n, ["3"] = a :: r -> py_int a = Some n ->
        resolve_tokens demo_os ("exit" :: ["3"]) = ExitCommand n)
  /\ (forall a r, ["3"] = a :: r -> py_int a = None ->
        resolve_tokens demo_os ("exit" :: ["3"]) = InvalidCommand "exit")
  /\ (forall ds r, ds <> "" -> all_chars is_digit ds = true ->
        (String.length ds <= int_max_str_digits)%nat ->
        (["3"] = ds :: r -> resolve_tokens demo_os ("exit" :: ["3"]) = ExitCommand (dec_value ds))
        /\ (["3"] = ("-" ++ ds) :: r ->
            resolve_tokens demo_os ("exit" :: ["3"]) = ExitCommand (- dec_value ds)%Z))
  /\ (forall a r, ["3"] = a :: r -> (int_max_str_digits < count_digits a)%nat ->
        resolve_tokens demo_os ("exit" :: ["3"]) = InvalidCommand "exit").
Proof.
  assert (Hf : find_redir ["exit"; "3"] = None) by reflexivity.
  split; [exact Hf|]. exact (C3_exit_resolution demo_os ["3"] Hf).
Defined.

(** C3 (counterexample): [exit 18446744073709551616] (2^64, outside every
    fixed-width integer range) resolves to [ExitCommand 18446744073709551616],
    not to [InvalidCommand "exit"]; and [exit 3 > f] is a redirection, not
    [ExitCommand 3]. *)
Lemma C3_exit_counterexample :
  resolve_tokens demo_os ["exit"; "18446744073709551616"] = ExitCommand 18446744073709551616
  /\ resolve_tokens demo_os ["exit"; "18446744073709551616"] <> InvalidCommand "exit"
  /\ resolve_tokens demo_os ["exit"; "3"; ">"; "f"] = RedirectCommand (ExitCommand 3) "f".
Proof.
  split; [vm_compute; reflexivity|]. split; [vm_compute; discriminate|].
  vm_compute. reflexivity.
Qed.

(** ** C4: [cd] *)

(** C4 (amended): [CdCommand t] passes [t] with a leading [~] expanded to
    [os.chdir].  On success it returns no value (Python [None], which the
    shell prints as nothing; it is not the string [""]) and the current
    directory changes; [FileNotFoundError], [NotADirectoryError] and
    [PermissionError] give the three [cd: t: ...] texts and change nothing;
    any other [OSError] of [os.chdir] is not caught and escapes [execute].
    [CdCommand] never raises [SystemExit]. *)
Theorem C4_cd_outcomes : forall o w t,
  let p := abspath (cwd w) (expanduser o t) in
  (forall d, os_chdir o p = ChdirOk d -> execute o (CdCommand t) w = (NoneOut, set_cwd w d))
  /\ (os_chdir o p = ChdirNotFound ->
      execute o (CdCommand t) w = (Out ("cd: " ++ t ++ ": No such file or directory"), w))
  /\ (os_chdir o p = ChdirNotADirectory ->
      execute o (CdCommand t) w = (Out ("cd: " ++ t ++ ": Not a directory"), w))
  /\ (os_chdir o p = ChdirPermission ->
      execute o (CdCommand t) w = (Out ("cd: " ++ t ++ ": Permission denied"), w))
  /\ (forall e, os_chdir o p = ChdirOtherError e -> execute o (CdCommand t) w = (Raised e, w))
  /\ (forall code w', execute o (CdCommand t) w <> (Terminate code, w')).
Proof.
  intros o w t p. simpl. unfold cd_execute. fold p.
  repeat split; intros; repeat match goal with H : os_chdir o p = _ |- _ => rewrite H end;
    try reflexivity.
  destruct (os_chdir o p); discriminate.
Qed.

(** C4 (counterexample): in a directory where [loop] is a symbolic-link
    cycle, [os.chdir] raises [OSError] (ELOOP), which [CdCommand.execute]
    does not catch: the shell loop ends.  And a successful [cd /tmp]
    returns [None], not [""]; redirected, it leaves a warning on stderr. *)
Lemma C4_cd_counterexample :
  shell_step demo_os demo_world "cd loop"
    = Crash "[Errno 40] Too many levels of symbolic links"
  /\ fst (execute demo_os (CdCommand "/tmp") demo_world) = NoneOut
  /\ fst (execute demo_os (CdCommand "/tmp") demo_world) <> Out ""
  /\ stderr (snd (execute demo_os (RedirectCommand (CdCommand "/tmp") "out.txt") demo_world))
     = "Error writing to file out.txt: write() argument must be str, not None" ++ String newline "".
Proof.
  split; [vm_compute; reflexivity|]. split; [vm_compute; reflexivity|].
  split; [vm_compute; discriminate|]. vm_compute. reflexivity.
Qed.

(** ** C5: a redirection operator with no target *)

(** C5 (amended): when the first [">"] or ["1>"] is the last token,
    [get_command] returns [InvalidCommand "No file specified for redirection"]
    (capital N), which executes to
    ["No file specified for redirection: command not found"]. *)
Theorem C5_redirect_without_target : forall o tokens i w,
  find_redir tokens = Some i -> i = length tokens - 1 ->
  resolve_tokens o tokens = InvalidCommand "No file specified for redirection"
  /\ execute o (resolve_tokens o tokens) w
     = (Out "No file specified for redirection: command not found", w).
Proof.
  intros o tokens i w Hf Hi.
  assert (Hr : resolve_tokens o tokens = InvalidCommand "No file specified for redirection").
  { unfold resolve_tokens, resolve_with.
    destruct tokens as [|t ts]; [discriminate|].
    rewrite Hf, Hi, Nat.eqb_refl. reflexivity. }
  rewrite Hr. split; reflexivity.
Qed.

Lemma C5_witness :
  find_redir ["echo"; "hi"; ">"] = Some 2 /\ 2 = length ["echo"; "hi"; ">"] - 1
  /\ resolve_tokens demo_os ["echo"; "hi"; ">"] = InvalidCommand "No file specified for redirection"
  /\ execute demo_os (resolve_tokens demo_os ["echo"; "hi"; ">"]) demo_world
     = (Out "No file specified for redirection: command not found", demo_world).
Proof.
  assert (Hf : find_redir ["echo"; "hi"; ">"] = Some 2) by reflexivity.
  assert (Hi : 2 = length ["echo"; "hi"; ">"] - 1) by reflexivity.
  split; [exact Hf|]. split; [exact Hi|].
  exact (C5_redirect_without_target demo_os _ 2 demo_world Hf Hi).
Defined.

(** C5 (counterexample): the reason string starts with a capital N. *)
Lemma C5_message_counterexample :
  resolve_tokens demo_os ["echo"; ">"] <> InvalidCommand "no file specified for redirection"
  /\ fst (execute demo_os (resolve_tokens demo_os ["echo"; ">"]) demo_world)
     <> Out "no file specified for redirection: command not found".
Proof. split; vm_compute; discriminate. Qed.

(** ** C6: backslashes inside double quotes *)

(** C6: inside double quotes a backslash followed by [c] contributes [c]
    alone when [c] is a double quote, a backslash, [$] or a newline, and the
    backslash and [c] otherwise; the surrounding literal text is kept, so
    [" a \c b "] is the single token [a ++ dq_escape c ++ b].  In particular
    [echo "a\"b"] gives the tokens [echo] and [a"b]. *)
Theorem C6_double_quote_escapes : forall a c b,
  all_chars dq_plain a = true -> all_chars dq_plain b = true ->
  (dq_escapable c = true <-> c = dquote \/ c = bslash \/ c = "$"%char \/ c = newline)
  /\ (forall r cur words,
        run InDoubleQuote (String bslash (String c r)) cur words
        = run InDoubleQuote r (cur ++ dq_escape c) words)
  /\ split_input (DQ ++ a ++ String bslash (String c b) ++ DQ)
     = TokOk [a ++ dq_escape c ++ b]
  /\ split_input ("echo " ++ DQ ++ "a" ++ String bslash DQ ++ "b" ++ DQ)
     = TokOk ["echo"; "a" ++ DQ ++ "b"].
Proof.
  intros a c b Ha Hb.
  assert (Hstep : forall r cur words,
    run InDoubleQuote (String bslash (String c r)) cur words
    = run InDoubleQuote r (cur ++ dq_escape c) words).
  { intros r cur words. simpl. unfold dq_escape, snoc.
    destruct (dq_escapable c); [reflexivity|].
    rewrite str_app_assoc. reflexivity. }
  split.
  { unfold dq_escapable. split.
    - intros H. repeat (apply orb_prop in H as [H|H]);
        apply Ascii.eqb_eq in H; subst; auto.
    - intros [H|[H|[H|H]]]; subst; vm_compute; reflexivity. }
  split; [exact Hstep|].
  split; [|vm_compute; reflexivity].
  unfold split_input. simpl.
  rewrite run_dq_plain by exact Ha. rewrite Hstep.
  rewrite run_dq_plain by exact Hb. simpl.
  unfold flush. rewrite str_app_assoc.
  destruct a as [|x a'].
  - simpl. unfold dq_escape. destruct (dq_escapable c); reflexivity.
  - reflexivity.
Qed.

Lemma C6_witness :
  all_chars dq_plain "a" = true /\ all_chars dq_plain "b" = true
  /\ (dq_escapable dquote = true <-> dquote = dquote \/ dquote = bslash \/ dquote = "$"%char \/ dquote = newline)
  /\ (forall r cur words,
        run InDoubleQuote (String bslash (String dquote r)) cur words
        = run InDoubleQuote r (cur ++ dq_escape dquote) words)
  /\ split_input (DQ ++ "a" ++ String bslash (String dquote "b") ++ DQ)
     = TokOk ["a" ++ dq_escape dquote ++ "b"]
  /\ split_input ("echo " ++ DQ ++ "a" ++ String bslash DQ ++ "b" ++ DQ)
     = TokOk ["echo"; "a" ++ DQ ++ "b"].
Proof.
  assert (Ha : all_chars dq_plain "a" = true) by reflexivity.
  assert (Hb : all_chars dq_plain "b" = true) by reflexivity.
  split; [exact Ha|]. split; [exact Hb|].
  exact (C6_double_quote_escapes "a" dquote "b" Ha Hb).
Defined.

(** ** C7: an unclosed single quote *)

(** C7: when the tokenizer reaches the end of the input inside a
    single-quoted segment, [split_input] raises [ValueError("Unclosed single
    quote in input")], [get_command] turns it into [InvalidCommand] with that
    message, which executes to ["Unclosed single quote in input: command not
    found"]; the shell prints it and goes on. *)
Theorem C7_unclosed_single_quote : forall o w line,
  final_state (strip line) = InSingleQuote ->
  split_input (strip line) = TokErr "Unclosed single quote in input"
  /\ get_command o (strip line) = InvalidCommand "Unclosed single quote in input"
  /\ execute o (get_command o (strip line)) w
     = (Out "Unclosed single quote in input: command not found", w)
  /\ shell_step o w line
     = Continue ("Unclosed single quote in input: command not found" ++ String newline "") w.
Proof.
  intros o w line H.
  assert (Hs : split_input (strip line) = TokErr "Unclosed single quote in input").
  { unfold final_state, split_input in *.
    destruct (run Normal (strip line) "" []) as [[st cur] words].
    subst st. reflexivity. }
  assert (Hg : get_command o (strip line) = InvalidCommand "Unclosed single quote in input")
    by (rewrite get_command_unfold, Hs; reflexivity).
  split; [exact Hs|]. split; [exact Hg|].
  split; [rewrite Hg; reflexivity|].
  unfold shell_step. rewrite Hg. reflexivity.
Qed.

Lemma C7_witness :
  final_state (strip "echo 'abc") = InSingleQuote
  /\ split_input (strip "echo 'abc") = TokErr "Unclosed single quote in input"
  /\ get_command demo_os (strip "echo 'abc") = InvalidCommand "Unclosed single quote in input"
  /\ execute demo_os (get_command demo_os (strip "echo 'abc")) demo_world
     = (Out "Unclosed single quote in input: command not found", demo_world)
  /\ shell_step demo_os demo_world "echo 'abc"
     = Continue ("Unclosed single quote in input: command not found" ++ String newline "") demo_world.
Proof.
  assert (H : final_state (strip "echo 'abc") = InSingleQuote) by reflexivity.
  split; [exact H|]. exact (C7_unclosed_single_quote demo_os demo_world _ H).
Defined.

(** ** C8: [type] *)

(** C8 (amended): [TypeCommand n] answers [n is a shell builtin] for the six
    builtins.  Otherwise it tries the [PATH] entries in order and, for the
    first entry [d] where [os.path.exists(os.path.join(d, n))] (existence
    only), answers [n is os.path.join(d, n)]: that path is [d/n] when [d] is
    non-empty, does not end in [/] and [n] does not start with [/], but [n]
    alone for an empty entry (an unset or empty [PATH], or [::]), [d ++ n]
    when [d] ends in [/], and [n] when [n] is absolute.  With no such entry
    it answers [n: not found]. *)
Theorem C8_type_answers : forall o w n,
  (in_list n builtins = true <->
     n = "help" \/ n = "exit" \/ n = "echo" \/ n = "type" \/ n = "pwd" \/ n = "cd")
  /\ (in_list n builtins = true ->
      execute o (TypeCommand n) w = (Out (n ++ " is a shell builtin"), w))
  /\ (forall pre d post,
        in_list n builtins = false -> path_dirs o = (pre ++ d :: post)%list ->
        Forall (fun d' => os_exists o (abspath (cwd w) (path_join d' n)) = false) pre ->
        os_exists o (abspath (cwd w) (path_join d n)) = true ->
        execute o (TypeCommand n) w = (Out (n ++ " is " ++ path_join d n), w))
  /\ (in_list n builtins = false ->
      Forall (fun d' => os_exists o (abspath (cwd w) (path_join d' n)) = false) (path_dirs o) ->
      execute o (TypeCommand n) w = (Out (n ++ ": not found"), w))
  /\ (forall d, starts_with_slash n = false ->
        (d = "" -> path_join d n = n)
        /\ (last_char d = Some "/"%char -> path_join d n = d ++ n)
        /\ (d <> "" -> last_char d <> Some "/"%char -> path_join d n = d ++ "/" ++ n))
  /\ (forall d, starts_with_slash n = true -> path_join d n = n).
Proof.
  intros o w n.
  split.
  { unfold in_list, builtins. simpl. split.
    - intros H. repeat (apply orb_prop in H as [H|H]; [apply String.eqb_eq in H; tauto|]).
      discriminate H.
    - intros H. repeat destruct H as [H|H]; subst; reflexivity. }
  split; [intros H; simpl; unfold type_execute; rewrite H; reflexivity|].
  split.
  { intros pre d post Hb Hp Hpre Hd. simpl. unfold type_execute. rewrite Hb, Hp.
    clear Hp. induction pre as [|d' pre IH]; simpl.
    - rewrite Hd. reflexivity.
    - inversion Hpre; subst. rewrite H1. apply IH. assumption. }
  split.
  { intros Hb Hn. simpl. unfold type_execute. rewrite Hb.
    induction (path_dirs o) as [|d' ds IH]; simpl; [reflexivity|].
    inversion Hn; subst. rewrite H1. apply IH. assumption. }
  split.
  { intros d Hs. unfold path_join. rewrite Hs. split; [|split].
    - intros ->. reflexivity.
    - intros ->. reflexivity.
    - intros Hne Hl. destruct (last_char d) as [c|] eqn:E.
      + destruct (Ascii.eqb c "/"%char) eqn:Ec; [|reflexivity].
        apply Ascii.eqb_eq in Ec. subst. contradiction.
      + exfalso. clear -Hne E. induction d as [|x d IH]; [contradiction|].
        destruct d as [|y d']; [discriminate|].
        apply IH; [discriminate | exact E]. }
  intros d Hs. unfold path_join. rewrite Hs. reflexivity.
Qed.

(** C8 (counterexample): with no [PATH] the only entry is the empty string
    and [os.path.join("", "ls")] is [ls]: with an [ls] in the current
    directory the answer is [ls is ls], not [ls is /ls]. *)
Lemma C8_type_path_counterexample :
  path_dirs demo_os_nopath = [""]
  /\ fst (execute demo_os_nopath (TypeCommand "ls") demo_world) = Out "ls is ls"
  /\ fst (execute demo_os_nopath (TypeCommand "ls") demo_world) <> Out ("ls is " ++ "" ++ "/" ++ "ls").
Proof. split; [reflexivity|]. split; [vm_compute; reflexivity | vm_compute; discriminate]. Qed.

(** ** C9: redirection writes the file *)

(** C9: when the inner command returns a string [text], [RedirectCommand]
    returns [""] whatever happens to the file.  When [open] and the write
    succeed the target holds exactly [text] (its previous contents, if any,
    are replaced) and no other file changes; when [open] fails the files are
    unchanged and a warning goes to standard error; when the write fails
    after [open] truncated the file, a warning goes to standard error and the
    file holds what the failed write left in it. *)
Theorem C9_redirect_writes : forall o inner t w text w1,
  execute o inner w = (Out text, w1) ->
  let p := abspath (cwd w1) t in
  fst (execute o (RedirectCommand inner t) w) = Out ""
  /\ (os_open_w o p = None -> os_write_w o p text = None ->
     execute o (RedirectCommand inner t) w = (Out "", set_file w1 p text)
     /\ files (snd (execute o (RedirectCommand inner t) w)) p = Some text
     /\ (forall q, q <> p -> files (snd (execute o (RedirectCommand inner t) w)) q = files w1 q))
  /\ (forall e, os_open_w o p = Some e ->
        execute o (RedirectCommand inner t) w
        = (Out "", log_err w1 ("Error writing to file " ++ t ++ ": " ++ e ++ String newline ""))
        /\ files (snd (execute o (RedirectCommand inner t) w)) = files w1)
  /\ (forall kept e, os_open_w o p = None -> os_write_w o p text = Some (kept, e) ->
        execute o (RedirectCommand inner t) w
        = (Out "", log_err (set_file w1 p kept)
                     ("Error writing to file " ++ t ++ ": " ++ e ++ String newline ""))
        /\ files (snd (execute o (RedirectCommand inner t) w)) p = Some kept
        /\ (forall q, q <> p -> files (snd (execute o (RedirectCommand inner t) w)) q = files w1 q)).
Proof.
  intros o inner t w text w1 He p.
  assert (Hr : execute o (RedirectCommand inner t) w
               = (Out "", redirect_write o w1 t (Some text)))
    by (simpl; rewrite He; reflexivity).
  rewrite Hr. unfold redirect_write. fold p.
  split; [reflexivity|]. split; [|split].
  - intros Ho Hw. rewrite Ho, Hw. split; [reflexivity|]. simpl.
    rewrite String.eqb_refl. split; [reflexivity|].
    intros q Hq. apply String.eqb_neq in Hq. rewrite Hq. reflexivity.
  - intros e Ho. rewrite Ho. split; reflexivity.
  - intros kept e Ho Hw. rewrite Ho, Hw. split; [reflexivity|]. simpl.
    rewrite String.eqb_refl. split; [reflexivity|].
    intros q Hq. apply String.eqb_neq in Hq. rewrite Hq. reflexivity.
Qed.

Lemma C9_witness :
  execute demo_os PwdCommand demo_world = (Out "/home/user", demo_world)
  /\ (let p := abspath (cwd demo_world) "/tmp/out.txt" in
      fst (execute demo_os (RedirectCommand PwdCommand "/tmp/out.txt") demo_world) = Out ""
      /\ (os_open_w demo_os p = None -> os_write_w demo_os p "/home/user" = None ->
         execute demo_os (RedirectCommand PwdCommand "/tmp/out.txt") demo_world
           = (Out "", set_file demo_world p "/home/user")
         /\ files (snd (execute demo_os (RedirectCommand PwdCommand "/tmp/out.txt") demo_world)) p
            = Some "/home/user"
         /\ (forall q, q <> p ->
               files (snd (execute demo_os (RedirectCommand PwdCommand "/tmp/out.txt") demo_world)) q
               = files demo_world q))
      /\ (forall e, os_open_w demo_os p = Some e ->
            execute demo_os (RedirectCommand PwdCommand "/tmp/out.txt") demo_world
            = (Out "", log_err demo_world ("Error writing to file " ++ "/tmp/out.txt" ++ ": " ++ e ++ String newline ""))
            /\ files (snd (execute demo_os (RedirectCommand PwdCommand "/tmp/out.txt") demo_world))
               = files demo_world)
      /\ (forall kept e, os_open_w demo_os p = None -> os_write_w demo_os p "/home/user" = Some (kept, e) ->
            execute demo_os (RedirectCommand PwdCommand "/tmp/out.txt") demo_world
            = (Out "", log_err (set_file demo_world p kept)
                         ("Error writing to file " ++ "/tmp/out.txt" ++ ": " ++ e ++ String newline ""))
            /\ files (snd (execute demo_os (RedirectCommand PwdCommand "/tmp/out.txt") demo_world)) p
               = Some kept
            /\ (forall q, q <> p ->
                  files (snd (execute demo_os (RedirectCommand PwdCommand "/tmp/out.txt") demo_world)) q
                  = files demo_world q))).
Proof.
  assert (He : execute demo_os PwdCommand demo_world = (Out "/home/user", demo_world))
    by reflexivity.
  split; [exact He|].
  exact (C9_redirect_writes demo_os PwdCommand "/tmp/out.txt" demo_world "/home/user" demo_world He).
Defined.

(** ** C10: a line that is only a redirection *)

(** C10: a line whose tokens are a redirection operator and a target [t]
    resolves to [RedirectCommand (InvalidCommand "") t]: the empty command
    before the operator is resolved from the empty string.  Executed, it
    returns [""], and when the file opens and the write succeeds it has
    written [": command not found"] into [t]. *)
Theorem C10_bare_redirection : forall o s op t w,
  split_input s = TokOk [op; t] -> is_redir_op op = true ->
  get_command o s = RedirectCommand (InvalidCommand "") t
  /\ fst (execute o (get_command o s) w) = Out ""
  /\ (os_open_w o (abspath (cwd w) t) = None ->
      os_write_w o (abspath (cwd w) t) ": command not found" = None ->
      execute o (get_command o s) w
      = (Out "", set_file w (abspath (cwd w) t) ": command not found")).
Proof.
  intros o s op t w Hs Hop.
  assert (Hg : get_command o s = RedirectCommand (InvalidCommand "") t).
  { rewrite get_command_unfold, Hs. unfold resolve_tokens, resolve_with.
    unfold find_redir. simpl find_redir_from. rewrite Hop. simpl.
    rewrite get_command_unfold. reflexivity. }
  split; [exact Hg|]. rewrite Hg. split; [reflexivity|].
  intros Ho Hw. simpl. unfold redirect_write. rewrite Ho, Hw. reflexivity.
Qed.

Lemma C10_witness :
  split_input "> out.txt" = TokOk [">"; "out.txt"] /\ is_redir_op ">" = true
  /\ get_command demo_os "> out.txt" = RedirectCommand (InvalidCommand "") "out.txt"
  /\ fst (execute demo_os (get_command demo_os "> out.txt") demo_world) = Out ""
  /\ (os_open_w demo_os (abspath (cwd demo_world) "out.txt") = None ->
      os_write_w demo_os (abspath (cwd demo_world) "out.txt") ": command not found" = None ->
      execute demo_os (get_command demo_os "> out.txt") demo_world
      = (Out "", set_file demo_world (abspath (cwd demo_world) "out.txt") ": command not found")).
Proof.
  assert (Hs : split_input "> out.txt" = TokOk [">"; "out.txt"]) by reflexivity.
  assert (Hop : is_redir_op ">" = true) by reflexivity.
  split; [exact Hs|]. split; [exact Hop|].
  exact (C10_bare_redirection demo_os "> out.txt" ">" "out.txt" demo_world Hs Hop).
Defined.

(* ================================================================== *)
(** * Further properties of the code *)

(** ** Tokenizer *)

Lemma words_measure_sum : forall ws,
  words_measure ws = list_sum (map String.length ws) + length ws.
Proof. induction ws as [|w ws IH]; simpl; [reflexivity | rewrite IH; lia]. Qed.

(** The tokens hold no more characters than the input: the lengths of the
    tokens plus their number is at most the length of the input plus one. *)
Theorem split_input_token_chars : forall s tokens,
  split_input s = TokOk tokens ->
  list_sum (map String.length tokens) + length tokens <= String.length s + 1.
Proof.
  intros s tokens H. rewrite <- words_measure_sum. exact (split_input_measure s tokens H).
Qed.

Lemma split_input_token_chars_witness :
  split_input "ab  'c d'" = TokOk ["ab"; "c d"]
  /\ list_sum (map String.length ["ab"; "c d"]) + length ["ab"; "c d"]
     <= String.length "ab  'c d'" + 1.
Proof.
  assert (H : split_input "ab  'c d'" = TokOk ["ab"; "c d"]) by reflexivity.
  split; [exact H | exact (split_input_token_chars _ _ H)].
Defined.

(** Joining non-empty tokens free of whitespace, quotes and backslashes with
    single spaces and tokenizing the result gives the tokens back. *)
Theorem split_input_join_plain : forall ts,
  Forall plain_token ts -> split_input (String.concat " " ts) = TokOk ts.
Proof. exact split_input_concat_plain. Qed.

Lemma split_input_join_plain_witness :
  Forall plain_token ["ls"; "-l"; "/tmp"]
  /\ split_input (String.concat " " ["ls"; "-l"; "/tmp"]) = TokOk ["ls"; "-l"; "/tmp"].
Proof.
  assert (H : Forall plain_token ["ls"; "-l"; "/tmp"]).
  { repeat constructor; discriminate. }
  split; [exact H | exact (split_input_join_plain _ H)].
Defined.

Lemma run_sq_plain : forall v r cur words,
  all_chars (fun c => negb (Ascii.eqb c squote)) v = true ->
  run InSingleQuote (v ++ r) cur words = run InSingleQuote r (cur ++ v) words.
Proof.
  induction v as [|c v IH]; intros r cur words H.
  - simpl. now rewrite str_app_nil.
  - simpl in H. apply andb_prop in H as [Hc Hv]. apply negb_true_iff in Hc.
    simpl. rewrite Hc, IH by exact Hv. unfold snoc. now rewrite str_app_assoc.
Qed.

Lemma run_plain_end : forall u cur words,
  all_chars plain_char u = true -> run Normal u cur words = (Normal, cur ++ u, words).
Proof.
  intros u cur words H. rewrite <- (str_app_nil u) at 1. rewrite run_plain by exact H.
  reflexivity.
Qed.

(** Inside single quotes every character but the closing quote is taken
    literally (whitespace, double quotes, backslashes), and the quoted text
    is glued to the unquoted text around it: [u'v'w] is the one token
    [u ++ v ++ w], or no token when that is empty. *)
Theorem split_input_single_quoted : forall u v w,
  all_chars plain_char u = true ->
  all_chars (fun c => negb (Ascii.eqb c squote)) v = true ->
  all_chars plain_char w = true ->
  split_input (u ++ "'" ++ v ++ "'" ++ w)
  = TokOk (if String.eqb (u ++ v ++ w) "" then [] else [u ++ v ++ w]).
Proof.
  intros u v w Hu Hv Hw. unfold split_input.
  rewrite run_plain by exact Hu. simpl.
  rewrite run_sq_plain by exact Hv. simpl.
  rewrite run_plain_end by exact Hw. simpl.
  unfold flush. now rewrite str_app_assoc.
Qed.

Lemma split_input_single_quoted_witness :
  all_chars plain_char "a" = true
  /\ all_chars (fun c => negb (Ascii.eqb c squote)) ("x  " ++ DQ ++ "\y") = true
  /\ all_chars plain_char "b" = true
  /\ split_input ("a" ++ "'" ++ ("x  " ++ DQ ++ "\y") ++ "'" ++ "b")
     = TokOk (if String.eqb ("a" ++ ("x  " ++ DQ ++ "\y") ++ "b") "" then []
              else ["a" ++ ("x  " ++ DQ ++ "\y") ++ "b"]).
Proof.
  assert (H1 : all_chars plain_char "a" = true) by reflexivity.
  assert (H2 : all_chars (fun c => negb (Ascii.eqb c squote)) ("x  " ++ DQ ++ "\y") = true)
    by reflexivity.
  assert (H3 : all_chars plain_char "b" = true) by reflexivity.
  split; [exact H1|]. split; [exact H2|]. split; [exact H3|].
  exact (split_input_single_quoted _ _ _ H1 H2 H3).
Defined.

(** Outside quotes a backslash makes the next character, whatever it is
    (space, quote, backslash), a literal part of the word and is dropped; a
    backslash that ends the input is kept. *)
Theorem split_input_backslash : forall u c w,
  all_chars plain_char u = true -> all_chars plain_char w = true ->
  split_input (u ++ String bslash (String c w)) = TokOk [u ++ String c w]
  /\ split_input (u ++ String bslash "") = TokOk [u ++ String bslash ""].
Proof.
  intros u c w Hu Hw. unfold split_input. split.
  - rewrite run_plain by exact Hu. simpl.
    rewrite run_plain_end by exact Hw. unfold snoc.
    rewrite str_app_assoc. simpl. unfold flush. now rewrite str_app_nonempty.
  - rewrite run_plain by exact Hu. simpl. unfold flush, snoc.
    now rewrite str_app_nonempty.
Qed.

Lemma split_input_backslash_witness :
  all_chars plain_char "a" = true /\ all_chars plain_char "b" = true
  /\ split_input ("a" ++ String bslash (String " " "b")) = TokOk ["a" ++ String " " "b"]
  /\ split_input ("a" ++ String bslash "") = TokOk ["a" ++ String bslash ""].
Proof.
  assert (H1 : all_chars plain_char "a" = true) by reflexivity.
  assert (H2 : all_chars plain_char "b" = true) by reflexivity.
  split; [exact H1|]. split; [exact H2|].
  exact (split_input_backslash "a" " "%char "b" H1 H2).
Defined.

Lemma run_no_quote_normal : forall n cs cur words, String.length cs <= n ->
  all_chars (fun c => negb (Ascii.eqb c squote || Ascii.eqb c dquote)) cs = true ->
  fst (fst (run Normal cs cur words)) = Normal.
Proof.
  induction n as [|n IH]; intros cs cur words Hn H.
  - destruct cs; simpl in *; [reflexivity | lia].
  - destruct cs as [|c rest]; [reflexivity|].
    simpl in Hn, H. apply andb_prop in H as [Hc Hr].
    apply negb_true_iff, orb_false_iff in Hc as [Hs Hd].
    simpl. rewrite Hs, Hd.
    destruct (isspace c); [apply IH; [lia | exact Hr]|].
    destruct (Ascii.eqb c bslash); [|apply IH; [lia | exact Hr]].
    destruct rest as [|c2 rest2]; [reflexivity|].
    simpl in Hn, Hr. apply andb_prop in Hr as [_ Hr2].
    apply IH; [lia | exact Hr2].
Qed.

(** [split_input] fails only on quotes: an input with no single or double
    quote always tokenizes. *)
Theorem split_input_no_quote_ok : forall s,
  all_chars (fun c => negb (Ascii.eqb c squote || Ascii.eqb c dquote)) s = true ->
  exists tokens, split_input s = TokOk tokens.
Proof.
  intros s H. unfold split_input.
  pose proof (run_no_quote_normal (String.length s) s "" [] (le_n _) H) as Hn.
  destruct (run Normal s "" []) as [[st cur] words]. simpl in Hn. subst st.
  eexists. reflexivity.
Qed.

Lemma split_input_no_quote_ok_witness :
  all_chars (fun c => negb (Ascii.eqb c squote || Ascii.eqb c dquote)) "cat a\ b >f" = true
  /\ exists tokens, split_input "cat a\ b >f" = TokOk tokens.
Proof.
  assert (H : all_chars (fun c => negb (Ascii.eqb c squote || Ascii.eqb c dquote))
                "cat a\ b >f" = true) by reflexivity.
  split; [exact H | exact (split_input_no_quote_ok _ H)].
Defined.

(** Leading whitespace never changes the tokens or the error. *)
Theorem split_input_leading_space : forall ws s,
  all_chars isspace ws = true -> split_input (ws ++ s) = split_input s.
Proof.
  intros ws s H. unfold split_input. f_equal.
  induction ws as [|c ws IH]; [reflexivity|].
  simpl in H. apply andb_prop in H as [Hc Hw].
  simpl. rewrite Hc. exact (IH Hw).
Qed.

Lemma split_input_leading_space_witness :
  all_chars isspace (String (chr 9) "  ") = true
  /\ split_input (String (chr 9) "  " ++ "echo hi") = split_input "echo hi".
Proof.
  assert (H : all_chars isspace (String (chr 9) "  ") = true) by reflexivity.
  split; [exact H | exact (split_input_leading_space _ _ H)].
Defined.

(** ** Resolver and shell loop *)

Lemma get_command_empty : forall o, get_command o "" = InvalidCommand "".
Proof. reflexivity. Qed.

(** A blank line (the shell strips what it reads) resolves to
    [InvalidCommand ""]: the shell prints [": command not found"] and goes on,
    with the world unchanged. *)
Theorem shell_step_blank_line : forall o w line,
  strip line = "" ->
  shell_step o w line = Continue (": command not found" ++ String newline "") w.
Proof.
  intros o w line H. unfold shell_step. rewrite H, get_command_empty. reflexivity.
Qed.

Lemma shell_step_blank_line_witness :
  strip "   " = "" /\
  shell_step demo_os demo_world "   " = Continue (": command not found" ++ String newline "") demo_world.
Proof.
  assert (H : strip "   " = "") by reflexivity.
  split; [exact H | exact (shell_step_blank_line demo_os demo_world _ H)].
Defined.

(** An input that ends inside a double-quoted segment resolves to
    [InvalidCommand "Unclosed double quote in input"]; the shell prints
    ["Unclosed double quote in input: command not found"] and goes on. *)
Theorem unclosed_double_quote : forall o w line,
  final_state (strip line) = InDoubleQuote ->
  get_command o (strip line) = InvalidCommand "Unclosed double quote in input"
  /\ shell_step o w line
     = Continue ("Unclosed double quote in input: command not found" ++ String newline "") w.
Proof.
  intros o w line H.
  assert (Hs : split_input (strip line) = TokErr "Unclosed double quote in input").
  { unfold final_state, split_input in *.
    destruct (run Normal (strip line) "" []) as [[st cur] words].
    subst st. reflexivity. }
  assert (Hg : get_command o (strip line) = InvalidCommand "Unclosed double quote in input")
    by (rewrite get_command_unfold, Hs; reflexivity).
  split; [exact Hg|]. unfold shell_step. rewrite Hg. reflexivity.
Qed.

Lemma unclosed_double_quote_witness :
  final_state (strip ("echo " ++ DQ ++ "abc")) = InDoubleQuote
  /\ get_command demo_os (strip ("echo " ++ DQ ++ "abc"))
     = InvalidCommand "Unclosed double quote in input"
  /\ shell_step demo_os demo_world ("echo " ++ DQ ++ "abc")
     = Continue ("Unclosed double quote in input: command not found" ++ String newline "")
                demo_world.
Proof.
  assert (H : final_state (strip ("echo " ++ DQ ++ "abc")) = InDoubleQuote) by reflexivity.
  split; [exact H | exact (unclosed_double_quote demo_os demo_world _ H)].
Defined.

Lemma rstrip_by_last : forall p h,
  (forall c, last_char h = Some c -> p c = false) -> rstrip_by p h = h.
Proof.
  intros p. induction h as [|c r IH]; intros H; [reflexivity|].
  simpl. destruct r as [|c' r'].
  - simpl. rewrite (H c eq_refl). reflexivity.
  - rewrite IH by (intros x Hx; apply H; exact Hx). reflexivity.
Qed.

(** The builtins given without their argument: [cd] goes to the home
    directory ([~] expanded, so a home path without a trailing slash as it
    is), [type] is invalid, [exit] exits with 0, [echo] prints the empty
    string; [cd] and [type] ignore every argument after the first. *)
Theorem builtins_argument_defaults : forall o h,
  os_home o = Some h -> h <> "" -> last_char h <> Some "/"%char ->
  resolve_tokens o ["cd"] = CdCommand h
  /\ resolve_tokens o ["type"] = InvalidCommand "type"
  /\ resolve_tokens o ["exit"] = ExitCommand 0
  /\ resolve_tokens o ["echo"] = EchoCommand ""
  /\ (forall a rest, find_redir ("cd" :: a :: rest) = None ->
        resolve_tokens o ("cd" :: a :: rest) = CdCommand a)
  /\ (forall a rest, find_redir ("type" :: a :: rest) = None ->
        resolve_tokens o ("type" :: a :: rest) = TypeCommand a).
Proof.
  intros o h Hh Hne Hl.
  assert (Hr : rstrip_by (fun c => Ascii.eqb c "/"%char) h = h).
  { apply rstrip_by_last. intros c Hc.
    destruct (Ascii.eqb c "/"%char) eqn:E; [|reflexivity].
    apply Ascii.eqb_eq in E. subst. contradiction. }
  split.
  { unfold resolve_tokens, resolve_with. simpl. unfold expanduser. simpl.
    rewrite Hh, Hr, str_app_nil. destruct (String.eqb h "") eqn:E; [|reflexivity].
    apply String.eqb_eq in E. contradiction. }
  split; [reflexivity|]. split; [reflexivity|]. split; [reflexivity|].
  split; intros a rest Hf; unfold resolve_tokens, resolve_with; rewrite Hf; reflexivity.
Qed.

Lemma builtins_argument_defaults_witness :
  os_home demo_os = Some "/home/user" /\ "/home/user" <> ""
  /\ last_char "/home/user" <> Some "/"%char
  /\ resolve_tokens demo_os ["cd"] = CdCommand "/home/user"
  /\ resolve_tokens demo_os ["type"] = InvalidCommand "type"
  /\ resolve_tokens demo_os ["exit"] = ExitCommand 0
  /\ resolve_tokens demo_os ["echo"] = EchoCommand ""
  /\ (forall a rest, find_redir ("cd" :: a :: rest) = None ->
        resolve_tokens demo_os ("cd" :: a :: rest) = CdCommand a)
  /\ (forall a rest, find_redir ("type" :: a :: rest) = None ->
        resolve_tokens demo_os ("type" :: a :: rest) = TypeCommand a).
Proof.
  assert (H1 : os_home demo_os = Some "/home/user") by reflexivity.
  assert (H2 : "/home/user" <> "") by discriminate.
  assert (H3 : last_char "/home/user" <> Some "/"%char) by discriminate.
  split; [exact H1|]. split; [exact H2|]. split; [exact H3|].
  exact (builtins_argument_defaults demo_os _ H1 H2 H3).
Defined.

Lemma find_redir_from_app : forall pre rest k,
  Forall (fun x => is_redir_op x = false) pre ->
  find_redir_from k (pre ++ rest) = find_redir_from (k + length pre) rest.
Proof.
  induction pre as [|x pre IH]; intros rest k H; simpl.
  - now rewrite Nat.add_0_r.
  - inversion H; subst. rewrite H2, IH by assumption. f_equal. lia.
Qed.

Lemma resolve_redirect_case : forall o tokens i,
  find_redir tokens = Some i -> i <> length tokens - 1 ->
  resolve_tokens o tokens
  = RedirectCommand (get_command o (String.concat " " (firstn i tokens)))
                    (nth (S i) tokens "").
Proof.
  intros o tokens i Hf Hi. unfold resolve_tokens, resolve_with.
  destruct tokens as [|t ts]; [discriminate|].
  rewrite Hf. apply Nat.eqb_neq in Hi. rewrite Hi. reflexivity.
Qed.

(** Only the token right after the first redirection operator is the
    target: whatever follows it is ignored. *)
Theorem redirect_ignores_trailing : forall o pre op t extra,
  Forall (fun x => is_redir_op x = false) pre -> is_redir_op op = true ->
  resolve_tokens o (pre ++ op :: t :: extra)
  = RedirectCommand (get_command o (String.concat " " pre)) t.
Proof.
  intros o pre op t extra Hpre Hop.
  assert (Hf : find_redir (pre ++ op :: t :: extra) = Some (length pre)).
  { unfold find_redir. rewrite find_redir_from_app by exact Hpre. simpl. now rewrite Hop. }
  assert (Hi : length pre <> length (pre ++ op :: t :: extra) - 1)
    by (rewrite length_app; simpl; lia).
  rewrite (resolve_redirect_case o _ _ Hf Hi). f_equal.
  - f_equal. rewrite firstn_app, Nat.sub_diag, firstn_all. simpl. now rewrite app_nil_r.
  - rewrite app_nth2 by lia. now rewrite Nat.sub_succ_l, Nat.sub_diag by lia.
Qed.

Lemma redirect_ignores_trailing_witness :
  Forall (fun x => is_redir_op x = false) ["echo"; "hi"] /\ is_redir_op "1>" = true
  /\ resolve_tokens demo_os (["echo"; "hi"] ++ "1>" :: "out.txt" :: ["extra"; ">"; "g"])
     = RedirectCommand (get_command demo_os (String.concat " " ["echo"; "hi"])) "out.txt".
Proof.
  assert (H1 : Forall (fun x => is_redir_op x = false) ["echo"; "hi"]) by (repeat constructor).
  assert (H2 : is_redir_op "1>" = true) by reflexivity.
  split; [exact H1|]. split; [exact H2|].
  exact (redirect_ignores_trailing demo_os _ _ "out.txt" ["extra"; ">"; "g"] H1 H2).
Defined.

(** [echo] through the shell: the words after [echo] are printed joined by
    single spaces (so runs of blanks between unquoted words collapse), with a
    newline; nothing at all is printed when that text is empty. *)
Theorem shell_echo : forall o w line args,
  split_input (strip line) = TokOk ("echo" :: args) ->
  find_redir ("echo" :: args) = None ->
  shell_step o w line
  = Continue (if String.eqb (String.concat " " args) "" then ""
              else String.concat " " args ++ String newline "") w.
Proof.
  intros o w line args Hs Hf. unfold shell_step.
  rewrite get_command_unfold, Hs. unfold resolve_tokens, resolve_with. rewrite Hf.
  destruct args as [|a args']; reflexivity.
Qed.

Lemma shell_echo_witness :
  split_input (strip "echo   hello    world ") = TokOk ("echo" :: ["hello"; "world"])
  /\ find_redir ("echo" :: ["hello"; "world"]) = None
  /\ shell_step demo_os demo_world "echo   hello    world "
     = Continue (if String.eqb (String.concat " " ["hello"; "world"]) "" then ""
                 else String.concat " " ["hello"; "world"] ++ String newline "") demo_world.
Proof.
  assert (H1 : split_input (strip "echo   hello    world ") = TokOk ("echo" :: ["hello"; "world"]))
    by reflexivity.
  assert (H2 : find_redir ("echo" :: ["hello"; "world"]) = None) by reflexivity.
  split; [exact H1|]. split; [exact H2|].
  exact (shell_echo demo_os demo_world _ _ H1 H2).
Defined.

(** [exit] through the shell ends the loop with the code [int()] gives, or
    0 with no argument; an argument [int()] rejects (not an integer, or
    more than 4300 digits) does not end it. *)
Theorem shell_exit : forall o w line rest,
  split_input (strip line) = TokOk ("exit" :: rest) ->
  find_redir ("exit" :: rest) = None ->
  (rest = [] -> shell_step o w line = Halt 0)
  /\ (forall a r n, rest = a :: r -> py_int a = Some n -> shell_step o w line = Halt n)
  /\ (forall a r, rest = a :: r -> py_int a = None ->
        shell_step o w line = Continue ("exit: command not found" ++ String newline "") w).
Proof.
  intros o w line rest Hs Hf. unfold shell_step.
  rewrite get_command_unfold, Hs. unfold resolve_tokens, resolve_with. rewrite Hf.
  split; [intros ->; reflexivity|].
  split; [intros a r n -> Hn | intros a r -> Hn]; simpl; rewrite Hn; reflexivity.
Qed.

Lemma shell_exit_witness :
  split_input (strip " exit 3") = TokOk ("exit" :: ["3"])
  /\ find_redir ("exit" :: ["3"]) = None
  /\ ((["3"] : list string) = [] -> shell_step demo_os demo_world " exit 3" = Halt 0)
  /\ (forall a r n, ["3"] = a :: r -> py_int a = Some n ->
        shell_step demo_os demo_world " exit 3" = Halt n)
  /\ (forall a r, ["3"] = a :: r -> py_int a = None ->
        shell_step demo_os demo_world " exit 3"
        = Continue ("exit: command not found" ++ String newline "") demo_world).
Proof.
  assert (H1 : split_input (strip " exit 3") = TokOk ("exit" :: ["3"])) by reflexivity.
  assert (H2 : find_redir ("exit" :: ["3"]) = None) by reflexivity.
  split; [exact H1|]. split; [exact H2|].
  exact (shell_exit demo_os demo_world _ _ H1 H2).
Defined.

(** ** Execution *)

(** [cd d > f] through the shell: the inner [cd] runs before the file is
    opened, so the target [f] is resolved against the NEW current directory;
    [open] truncates it to empty, [f.write(None)] raises [TypeError], whose
    warning goes to standard error, and the line prints nothing while the
    change of directory stays. *)
Theorem shell_cd_redirect : forall o w line d op f d',
  split_input (strip line) = TokOk ["cd"; d; op; f] ->
  plain_token d -> is_redir_op d = false -> is_redir_op op = true ->
  os_chdir o (abspath (cwd w) (expanduser o d)) = ChdirOk d' ->
  os_open_w o (abspath d' f) = None ->
  shell_step o w line
  = Continue "" (log_err (set_file (set_cwd w d') (abspath d' f) "")
                   ("Error writing to file " ++ f ++ ": " ++ write_none_msg ++ String newline "")).
Proof.
  intros o w line d op f d' Hs Hd Hdr Hop Hc Ho.
  assert (Hf : find_redir ["cd"; d; op; f] = Some 2).
  { unfold find_redir. simpl. rewrite Hdr, Hop. reflexivity. }
  assert (Hinner : get_command o (String.concat " " ["cd"; d]) = CdCommand d).
  { rewrite get_command_unfold, split_input_concat_plain.
    - unfold resolve_tokens, resolve_with. unfold find_redir. simpl. rewrite Hdr. reflexivity.
    - constructor; [split; [discriminate | reflexivity]|]. constructor; [exact Hd | constructor]. }
  unfold shell_step. rewrite get_command_unfold, Hs.
  rewrite (resolve_redirect_case o _ 2 Hf) by discriminate.
  simpl firstn. simpl nth. rewrite Hinner. simpl. unfold cd_execute. rewrite Hc.
  unfold redirect_write. simpl. rewrite Ho. reflexivity.
Qed.

Lemma shell_cd_redirect_witness :
  split_input (strip "cd /tmp > out.txt") = TokOk ["cd"; "/tmp"; ">"; "out.txt"]
  /\ plain_token "/tmp" /\ is_redir_op "/tmp" = false /\ is_redir_op ">" = true
  /\ os_chdir demo_os (abspath (cwd demo_world) (expanduser demo_os "/tmp")) = ChdirOk "/tmp"
  /\ os_open_w demo_os (abspath "/tmp" "out.txt") = None
  /\ shell_step demo_os demo_world "cd /tmp > out.txt"
     = Continue "" (log_err (set_file (set_cwd demo_world "/tmp") (abspath "/tmp" "out.txt") "")
                     ("Error writing to file " ++ "out.txt" ++ ": " ++ write_none_msg
                      ++ String newline "")).
Proof.
  assert (H1 : split_input (strip "cd /tmp > out.txt") = TokOk ["cd"; "/tmp"; ">"; "out.txt"])
    by reflexivity.
  assert (H2 : plain_token "/tmp") by (split; [discriminate | reflexivity]).
  assert (H3 : is_redir_op "/tmp" = false) by reflexivity.
  assert (H4 : is_redir_op ">" = true) by reflexivity.
  assert (H5 : os_chdir demo_os (abspath (cwd demo_world) (expanduser demo_os "/tmp"))
               = ChdirOk "/tmp") by reflexivity.
  assert (H6 : os_open_w demo_os (abspath "/tmp" "out.txt") = None) by reflexivity.
  split; [exact H1|]. split; [exact H2|]. split; [exact H3|]. split; [exact H4|].
  split; [exact H5|]. split; [exact H6|].
  exact (shell_cd_redirect demo_os demo_world _ _ _ _ _ H1 H2 H3 H4 H5 H6).
Defined.

(** [ExternalCommand n args] runs the first [PATH] entry [d] where
    [os.path.join(d, n)] is a regular file with execute permission (entries
    that merely exist are skipped), with argument vector [n :: args] in the
    current directory; its standard output is the result, its standard
    error is forwarded, and the files are as the child left them; a failure
    of [subprocess.run] gives ["Error while executing n: ..."].  With no such
    entry the result is ["n: command not found"] and nothing changes. *)
Theorem external_first_executable : forall o w n args,
  (forall pre d post,
     path_dirs o = (pre ++ d :: post)%list ->
     Forall (fun d' => os_is_exec_file o (abspath (cwd w) (path_join d' n)) = false) pre ->
     os_is_exec_file o (abspath (cwd w) (path_join d n)) = true ->
     execute o (ExternalCommand n args) w
     = match os_run o (cwd w) (path_join d n) (n :: args) (files w) with
       | ProcDone out err fs =>
           (Out out, if String.eqb err "" then set_files w fs else log_err (set_files w fs) err)
       | ProcFailed e fs => (Out ("Error while executing " ++ n ++ ": " ++ e), set_files w fs)
       end)
  /\ (Forall (fun d' => os_is_exec_file o (abspath (cwd w) (path_join d' n)) = false)
       (path_dirs o) ->
      execute o (ExternalCommand n args) w = (Out (n ++ ": command not found"), w)).
Proof.
  intros o w n args. split.
  - intros pre d post Hp Hpre Hd. simpl. rewrite Hp. clear Hp.
    induction pre as [|d' pre IH]; simpl.
    + rewrite Hd. reflexivity.
    + inversion Hpre; subst. rewrite H1. apply IH. assumption.
  - intros Hn. simpl. induction (path_dirs o) as [|d' ds IH]; simpl; [reflexivity|].
    inversion Hn; subst. rewrite H1. apply IH. assumption.
Qed.

(** [str.split(sep)] followed by [sep.join] gives the string back; the
    pieces are never an empty list and contain no separator. *)
Theorem split_on_join : forall sep s,
  String.concat (String sep "") (split_on sep s) = s
  /\ split_on sep s <> []
  /\ Forall (fun p => all_chars (fun c => negb (Ascii.eqb c sep)) p = true) (split_on sep s).
Proof.
  intros sep. induction s as [|c r IH]; [repeat constructor; discriminate|].
  destruct IH as (IHc & IHne & IHf). simpl.
  destruct (Ascii.eqb c sep) eqn:E.
  - apply Ascii.eqb_eq in E. subst c. split; [|split; [discriminate|]].
    + destruct (split_on sep r) as [|p ps]; [contradiction|].
      simpl. simpl in IHc. rewrite IHc. reflexivity.
    + constructor; [reflexivity | exact IHf].
  - destruct (split_on sep r) as [|p ps]; [contradiction|].
    split; [|split; [discriminate|]].
    + destruct ps as [|q qs]; simpl in *; [now rewrite IHc | now rewrite IHc].
    + inversion IHf; subst. constructor; [simpl; rewrite E; assumption | assumption].
Qed.

Lemma rstrip_by_app_all : forall p h t,
  all_chars p t = true -> rstrip_by p (h ++ t) = rstrip_by p h.
Proof.
  intros p h t Ht. induction h as [|c r IH]; simpl.
  - induction t as [|x t' IHt]; [reflexivity|].
    simpl in Ht |- *. apply andb_prop in Ht as [Hx Ht'].
    rewrite IHt by exact Ht'. simpl. rewrite Hx. reflexivity.
  - rewrite IH. reflexivity.
Qed.

Lemma all_slashes : forall k, all_chars (fun c => Ascii.eqb c "/"%char) (slashes k) = true.
Proof. induction k as [|k IH]; [reflexivity | exact IH]. Qed.

(** [os.path.expanduser]: a path not starting with [~] is returned as it is;
    [~] and [~/rest] use the home directory with its trailing slashes
    removed ([userhome.rstrip("/")]); a home directory made only of slashes
    (or empty) gives [/] for [~] and [/rest] for [~/rest]; when the home
    directory is unknown the path is returned as it is. *)
Theorem expanduser_cases : forall o p,
  (forall c r, p = String c r -> c <> "~"%char -> expanduser o p = p)
  /\ (expanduser o "" = "")
  /\ (forall h k rest, os_home o = Some (h ++ slashes k) -> h <> "" ->
        last_char h <> Some "/"%char ->
        expanduser o "~" = h /\ expanduser o ("~/" ++ rest) = h ++ "/" ++ rest)
  /\ (forall k rest, os_home o = Some (slashes k) ->
        expanduser o "~" = "/" /\ expanduser o ("~/" ++ rest) = "/" ++ rest)
  /\ (os_home o = None ->
        expanduser o "~" = "~" /\ forall rest, expanduser o ("~/" ++ rest) = "~/" ++ rest).
Proof.
  intros o p. split.
  { intros c r -> Hc. unfold expanduser.
    destruct (Ascii.eqb c "~"%char) eqn:E; [apply Ascii.eqb_eq in E; contradiction | reflexivity]. }
  split; [reflexivity|].
  split.
  { intros h k rest Hh Hne Hl.
    assert (Hr : rstrip_by (fun c => Ascii.eqb c "/"%char) (h ++ slashes k) = h).
    { rewrite rstrip_by_app_all by apply all_slashes. apply rstrip_by_last. intros c Hc.
      destruct (Ascii.eqb c "/"%char) eqn:E; [|reflexivity].
      apply Ascii.eqb_eq in E. subst. contradiction. }
    unfold expanduser. simpl. rewrite Hh, Hr. split.
    - rewrite str_app_nil. destruct (String.eqb h "") eqn:E; [|reflexivity].
      apply String.eqb_eq in E. contradiction.
    - destruct h as [|x h']; [contradiction | reflexivity]. }
  split.
  { intros k rest Hh.
    assert (Hr : rstrip_by (fun c => Ascii.eqb c "/"%char) (slashes k) = "").
    { exact (rstrip_by_app_all _ "" (slashes k) (all_slashes k)). }
    unfold expanduser. simpl. rewrite Hh, Hr. split; reflexivity. }
  intros Hh. unfold expanduser. simpl. rewrite Hh. split; [reflexivity|].
  intros rest. reflexivity.
Qed.

(** What [execute] never does: it only appends to standard error, whatever
    the command and its outcome (also when it ends the process or raises);
    only a [cd], possibly under a redirection, changes the shell's current
    directory (an external program runs in a child process); and only an
    external program or a redirection changes files. *)
Theorem execute_frame : forall o c w,
  (exists e, stderr (snd (execute o c w)) = stderr w ++ e)
  /\ (mentions_cd c = false -> cwd (snd (execute o c w)) = cwd w)
  /\ (may_write c = false -> files (snd (execute o c w)) = files w).
Proof.
  intros o c w.
  assert (Hext : forall n args ds,
    (exists e, stderr (snd (external_search o w n args ds)) = stderr w ++ e)
    /\ cwd (snd (external_search o w n args ds)) = cwd w).
  { intros n args ds. induction ds as [|d ds IH]; simpl.
    - split; [exists ""; symmetry; apply str_app_nil | reflexivity].
    - destruct (os_is_exec_file o _); [|exact IH].
      destruct (os_run o _ _ _ _) as [out err fs | e fs]; simpl.
      + destruct (String.eqb err ""); simpl.
        * split; [exists ""; symmetry; apply str_app_nil | reflexivity].
        * split; [exists err; reflexivity | reflexivity].
      + split; [exists ""; symmetry; apply str_app_nil | reflexivity]. }
  assert (Hrw : forall w1 f out,
    cwd (redirect_write o w1 f out) = cwd w1
    /\ exists e, stderr (redirect_write o w1 f out) = stderr w1 ++ e).
  { intros w1 f out. unfold redirect_write.
    destruct (os_open_w o _); [split; [reflexivity | eexists; reflexivity]|].
    destruct out as [text|]; [destruct (os_write_w o _ text) as [[kept e]|]|];
      (split; [reflexivity|]); simpl;
      first [eexists; reflexivity | exists ""; symmetry; apply str_app_nil]. }
  assert (Hnil : exists e, stderr w = stderr w ++ e)
    by (exists ""; symmetry; apply str_app_nil).
  induction c; simpl; try (split; [exact Hnil | split; intros; reflexivity]).
  - split; [|split; [discriminate | intros _]]; unfold cd_execute;
      destruct (os_chdir o _); first [exact Hnil | reflexivity].
  - split; [apply Hext|]. split; [intros _; apply Hext | discriminate].
  - destruct IHc as [[e IHe] [IHcwd _]].
    destruct (execute o c w) as [r w1]. simpl in IHe, IHcwd.
    split; [|split; [|discriminate]].
    + destruct r; simpl; try (exists e; exact IHe);
        match goal with |- context [redirect_write o w1 ?f ?out] =>
          destruct (Hrw w1 f out) as [_ [e' He']] end;
        rewrite He', IHe, str_app_assoc; eexists; reflexivity.
    + intros Hm. specialize (IHcwd Hm).
      destruct r; simpl; try rewrite (proj1 (Hrw _ _ _)); exact IHcwd.
Qed.
